(** * MetPy xarray accessors: axis identification, axis cache, quantity indexers

    A shallow embedding of [src/metpy/xarray.py]: the criteria table
    [coordinate_criteria], the matcher [check_axis], the resolver
    [_generate_coordinate_map] with [_resolve_axis_conflict], the attribute
    cache [_metpy_axis_search], the accessors [_axis] and [find_axis_name],
    and the indexer translation [_reassign_quantity_indexer].

    The labelled-array container and the units registry are collaborators of
    the module.  A data array is a record of its name, its dimension names
    and its ordered coordinates; a coordinate object is referred to by its
    position in that order, and its [attrs] dictionary lives in the array, so
    that writing [coord_var.attrs['_metpy_axis']] is an update of the array.
    The units registry is a section variable. *)

From Stdlib Require Import Ascii String ZArith List Bool.
From stdpp Require Import base option list functions gmap strings.
Import ListNotations.
Local Open Scope string_scope.
Local Open Scope list_scope.

(** ** Python strings *)

(** [a in s] for two strings: [a] occurs in [s] as a contiguous run. *)
Fixpoint str_in (a s : string) : bool :=
  String.prefix a s ||
  match s with
  | EmptyString => false
  | String _ s' => str_in a s'
  end.

Definition lower_ascii (c : ascii) : ascii :=
  let n := nat_of_ascii c in
  if (65 <=? n)%nat && (n <=? 90)%nat then ascii_of_nat (n + 32) else c.

(** [s.lower()] on the ASCII letters. *)
Fixpoint lower (s : string) : string :=
  match s with
  | EmptyString => EmptyString
  | String c s' => String (lower_ascii c) (lower s')
  end.

(** ** Regular expressions of the criteria table, and [re.match] *)

Inductive regex : Type :=
  | RNone                              (* matches nothing *)
  | REps                               (* the empty pattern *)
  | RChr (c : ascii)                   (* a literal character *)
  | RRange (lo hi : ascii)             (* a class range such as a-z *)
  | RCat (r1 r2 : regex)
  | RAlt (r1 r2 : regex)               (* r1|r2, also a class of several ranges *)
  | RStar (r : regex)
  | ROpt (r : regex).                  (* r? *)

Fixpoint RLit (s : string) : regex :=
  match s with
  | EmptyString => REps
  | String c s' => RCat (RChr c) (RLit s')
  end.

Fixpoint nullable (r : regex) : bool :=
  match r with
  | RNone => false
  | REps => true
  | RChr _ => false
  | RRange _ _ => false
  | RCat r1 r2 => nullable r1 && nullable r2
  | RAlt r1 r2 => nullable r1 || nullable r2
  | RStar _ => true
  | ROpt _ => true
  end.

Definition in_range (lo hi c : ascii) : bool :=
  (nat_of_ascii lo <=? nat_of_ascii c)%nat && (nat_of_ascii c <=? nat_of_ascii hi)%nat.

(** The residual pattern after reading [c]. *)
Fixpoint deriv (c : ascii) (r : regex) : regex :=
  match r with
  | RNone => RNone
  | REps => RNone
  | RChr c' => if Ascii.eqb c c' then REps else RNone
  | RRange lo hi => if in_range lo hi c then REps else RNone
  | RCat r1 r2 =>
      if nullable r1 then RAlt (RCat (deriv c r1) r2) (deriv c r2)
      else RCat (deriv c r1) r2
  | RAlt r1 r2 => RAlt (deriv c r1) (deriv c r2)
  | RStar r1 => RCat (deriv c r1) (RStar r1)
  | ROpt r1 => deriv c r1
  end.

(** [re.match(pattern, s)] is not [None]: some prefix of [s] matches. *)
Fixpoint re_match (r : regex) (s : string) : bool :=
  nullable r ||
  match s with
  | EmptyString => false
  | String c s' => re_match (deriv c r) s'
  end.

(** ** The criteria table *)

(** The keys under which [coordinate_criteria] is read by [check_axis]. *)
Inductive axis_name : Type :=
  ax_time | ax_vertical | ax_y | ax_lat | ax_x | ax_lon.

(** The CF axis types, the keys of [coord_lists] in their order. *)
Inductive cf_axis : Type := cfT | cfZ | cfY | cfX.

#[global] Instance axis_name_eq_dec : EqDecision axis_name.
Proof. solve_decision. Defined.
#[global] Instance cf_axis_eq_dec : EqDecision cf_axis.
Proof. solve_decision. Defined.

Definition cf_str (a : cf_axis) : string :=
  match a with cfT => "T" | cfZ => "Z" | cfY => "Y" | cfX => "X" end.

(** [readable_to_cf_axes] *)
Definition readable_to_cf_axes (key : string) : option cf_axis :=
  if String.eqb key "time" then Some cfT
  else if String.eqb key "vertical" then Some cfZ
  else if String.eqb key "y" then Some cfY
  else if String.eqb key "x" then Some cfX
  else None.

(** [cf_to_readable_axes] *)
Definition cf_to_readable_axes (a : cf_axis) : string :=
  match a with cfT => "time" | cfZ => "vertical" | cfY => "y" | cfX => "x" end.

(** A value of the table that is tested with [in]: a string or a set. *)
Inductive criterion_value : Type :=
  | CStr (s : string)
  | CSet (l : list string).

(** [value in container]; on a string this is Python's substring test. *)
Definition py_in (value : string) (container : criterion_value) : bool :=
  match container with
  | CStr s => str_in value s
  | CSet l => existsb (String.eqb value) l
  end.

Definition standard_name_criteria (a : axis_name) : criterion_value :=
  match a with
  | ax_time => CStr "time"
  | ax_vertical =>
      CSet ["air_pressure"; "height"; "geopotential_height"; "altitude";
            "model_level_number"; "atmosphere_ln_pressure_coordinate";
            "atmosphere_sigma_coordinate";
            "atmosphere_hybrid_sigma_pressure_coordinate";
            "atmosphere_hybrid_height_coordinate"; "atmosphere_sleve_coordinate";
            "height_above_geopotential_datum"; "height_above_reference_ellipsoid";
            "height_above_mean_sea_level"]
  | ax_y => CStr "projection_y_coordinate"
  | ax_lat => CStr "latitude"
  | ax_x => CStr "projection_x_coordinate"
  | ax_lon => CStr "longitude"
  end.

Definition coordinate_axis_type_criteria (a : axis_name) : criterion_value :=
  match a with
  | ax_time => CStr "Time"
  | ax_vertical => CSet ["GeoZ"; "Height"; "Pressure"]
  | ax_y => CStr "GeoY"
  | ax_lat => CStr "Lat"
  | ax_x => CStr "GeoX"
  | ax_lon => CStr "Lon"
  end.

(** The ['axis'] entry is [readable_to_cf_axes] itself: no key for lat, lon. *)
Definition axis_criteria (a : axis_name) : criterion_value :=
  match a with
  | ax_time => CStr "T"
  | ax_vertical => CStr "Z"
  | ax_y => CStr "Y"
  | ax_x => CStr "X"
  | ax_lat | ax_lon => CSet []
  end.

Definition positive_criteria (a : axis_name) : criterion_value :=
  match a with
  | ax_vertical => CSet ["up"; "down"]
  | _ => CSet []
  end.

(** The four attribute criteria in the order [check_axis] visits them;
    [attr_criteria_value criterion axis] is
    [coordinate_criteria[criterion].get(axis, set())]. *)
Definition attr_criteria : list string :=
  ["standard_name"; "_CoordinateAxisType"; "axis"; "positive"].

Definition attr_criteria_value (criterion : string) (a : axis_name) : criterion_value :=
  if String.eqb criterion "standard_name" then standard_name_criteria a
  else if String.eqb criterion "_CoordinateAxisType" then coordinate_axis_type_criteria a
  else if String.eqb criterion "axis" then axis_criteria a
  else if String.eqb criterion "positive" then positive_criteria a
  else CSet [].

(** [coordinate_criteria['units']] *)
Inductive units_rule : Type :=
  | MatchDimensionality (ref : string)
  | MatchName (names : list string).

Definition units_criteria (a : axis_name) : option units_rule :=
  match a with
  | ax_vertical => Some (MatchDimensionality "Pa")
  | ax_lat => Some (MatchName ["degree_north"; "degree_N"; "degreeN";
                            "degrees_north"; "degrees_N"; "degreesN"])
  | ax_lon => Some (MatchName ["degree_east"; "degree_E"; "degreeE";
                            "degrees_east"; "degrees_E"; "degreesE"])
  | _ => None
  end.

Definition digit : regex := RRange "0" "9".
Definition lower_letter : regex := RRange "a" "z".

(** [coordinate_criteria['regular_expression']] *)
Definition regular_expression (a : axis_name) : regex :=
  match a with
  | ax_time => RCat (RLit "time") (RStar digit)
  | ax_vertical =>
      RCat (RAlt (RLit "bottom_top")
           (RAlt (RLit "sigma")
           (RAlt (RCat (RChr "h") (RCat (ROpt (RLit "ei")) (RLit "ght")))
           (RAlt (RLit "altitude")
           (RAlt (RLit "depth")
           (RAlt (RLit "isobaric")
           (RAlt (RLit "pres") (RLit "isotherm"))))))))
           (RCat (RStar (RAlt lower_letter (RChr "_"))) (RStar digit))
  | ax_y => RLit "y"
  | ax_lat => RCat (ROpt (RChr "x")) (RCat (RLit "lat") (RStar (RAlt lower_letter digit)))
  | ax_x => RLit "x"
  | ax_lon => RCat (ROpt (RChr "x")) (RCat (RLit "lon") (RStar (RAlt lower_letter digit)))
  end.

(** ** The container: coordinates and data arrays *)

Record Coord : Type := mkCoord {
  cname : string;                 (* coord_var.name *)
  cdims : list string;            (* coord_var.dims *)
  cattrs : gmap string string     (* coord_var.attrs *)
}.

Record DataArray : Type := mkDataArray {
  name : string;                  (* data_array.name *)
  dims : list string;             (* data_array.dims *)
  coords : list Coord             (* data_array.coords.values(), in order *)
}.

Definition metpy_axis_key : string := "_metpy_axis".

(** [coord_var.attrs.get('_metpy_axis')] *)
Definition mark (c : Coord) : option string := cattrs c !! metpy_axis_key.

(** ** [check_axis] *)

Section Matcher.
(** The units registry: [units.get_dimensionality], applied to what
    [attrs.get('units')] returns; [None] as a result stands for the
    raised [UndefinedUnitError]. *)
Context {Dim : Type} `{EqDecision Dim}.
Variable get_dimensionality : option string -> option Dim.

(** The loop over the four attribute criteria for one axis. *)
Definition check_attrs (var : Coord) (a : axis_name) : bool :=
  existsb (fun criterion =>
             py_in (default "absent" (cattrs var !! criterion))
                   (attr_criteria_value criterion a))
          attr_criteria.

(** The [try] block: the units rule, with [except UndefinedUnitError: pass]. *)
Definition check_units (var : Coord) (a : axis_name) : bool :=
  match units_criteria a with
  | None => false
  | Some (MatchDimensionality ref) =>
      match get_dimensionality (cattrs var !! "units") with
      | None => false
      | Some d =>
          match get_dimensionality (Some ref) with
          | None => false
          | Some d' => bool_decide (d = d')
          end
      end
  | Some (MatchName names) =>
      match cattrs var !! "units" with
      | None => false
      | Some u => existsb (String.eqb u) names
      end
  end.

Definition check_regex (var : Coord) (a : axis_name) : bool :=
  re_match (regular_expression a) (lower (cname var)).

Fixpoint check_axis (var : Coord) (axes : list axis_name) : bool :=
  match axes with
  | [] => false
  | a :: rest =>
      if check_attrs var a then true
      else if check_units var a then true
      else if check_regex var a then true
      else check_axis var rest
  end.
End Matcher.


(** ** Exceptions, warnings and the state of the array *)

Inductive exn : Type :=
  | AttributeError (msg : string)
  | ValueError (msg : string)
  | KeyError (key : string)
  | IndexError
  | UndefinedUnitError
  | DimensionalityError
  | RuntimeError (msg : string).

Inductive result (A : Type) : Type :=
  | Ok (a : A)
  | Raise (e : exn).
Arguments Ok {A} a.
Arguments Raise {A} e.

(** A method of the accessor: it may update the attributes of the array's
    coordinates, calls [warnings.warn] some number of times, and returns or
    raises. *)
Definition M (A : Type) : Type := DataArray -> DataArray * list string * result A.

Definition ret {A} (a : A) : M A := fun v => (v, [], Ok a).
Definition raise {A} (e : exn) : M A := fun v => (v, [], Raise e).
Definition lift {A} (r : result A) : M A := fun v => (v, [], r).
(** The array as it is now. *)
Definition self_data_array : M DataArray := fun v => (v, [], Ok v).
Definition bind {A B} (m : M A) (f : A -> M B) : M B := fun v =>
  match m v with
  | (v', w, Ok a) => let '(v'', w', r) := f a v' in (v'', w ++ w', r)
  | (v', w, Raise e) => (v', w, Raise e)
  end.

Notation "'let*' x ':=' m 'in' k" := (bind m (fun x => k))
  (at level 10, x name, m at level 100, k at level 200).

Definition final {A} (o : DataArray * list string * result A) : DataArray := o.1.1.
Definition warned {A} (o : DataArray * list string * result A) : list string := o.1.2.
Definition returned {A} (o : DataArray * list string * result A) : result A := o.2.

Definition dquote : string := String "034"%char EmptyString.

(** [coord_var.attrs['_metpy_axis'] = axis] on the coordinate at position [i]. *)
Definition set_attr (key value : string) (c : Coord) : Coord :=
  mkCoord (cname c) (cdims c) (<[key := value]> (cattrs c)).

Definition set_mark (i : nat) (a : string) (v : DataArray) : DataArray :=
  mkDataArray (name v) (dims v) (alter (set_attr metpy_axis_key a) i (coords v)).

(** ** The resolver *)

(** A candidate is a coordinate object: its position in the array and the
    coordinate found there. *)
Definition candidate : Type := nat * Coord.

(** [axes_to_check], read in the order of its keys. *)
Definition cf_axes : list cf_axis := [cfT; cfZ; cfY; cfX].

Definition axes_to_check (a : cf_axis) : list axis_name :=
  match a with
  | cfT => [ax_time]
  | cfZ => [ax_vertical]
  | cfY => [ax_y; ax_lat]
  | cfX => [ax_x; ax_lon]
  end.

Definition is_horizontal (a : cf_axis) : bool :=
  match a with cfY | cfX => true | _ => false end.

Definition is_dimension_coord (c : Coord) : bool :=
  bool_decide (cname c ∈ cdims c).

Definition ambiguity_warning (a : cf_axis) (v : DataArray) : string :=
  "More than one " +:+ cf_to_readable_axes a +:+ " coordinate present "
    +:+ "for variable " +:+ dquote +:+ name v +:+ dquote +:+ ".".

(** The coordinates at and after position [i] that satisfy [p], each with
    its position. *)
Fixpoint matching (p : Coord -> bool) (i : nat) (cs : list Coord) : list candidate :=
  match cs with
  | [] => []
  | c :: cs' => (if p c then [(i, c)] else []) ++ matching p (S i) cs'
  end.

(** Two states of one coordinate that differ at most in the cache mark. *)
Definition same_meta (c c' : Coord) : Prop :=
  cname c = cname c' /\ cdims c = cdims c'
  /\ forall k, k <> metpy_axis_key -> cattrs c !! k = cattrs c' !! k.

(** Two states of one array that differ at most in the cache marks. *)
Definition same_array (v v' : DataArray) : Prop :=
  name v = name v' /\ dims v = dims v' /\ Forall2 same_meta (coords v) (coords v').

(** The same coordinate object in two such states. *)
Definition same_candidate (p q : candidate) : Prop :=
  p.1 = q.1 /\ same_meta p.2 q.2.

(** The coordinate at [i] carries the mark [a], and no other coordinate does. *)
Definition only_at (a : string) (i : nat) (v : DataArray) : Prop :=
  (exists c, coords v !! i = Some c /\ mark c = Some a)
  /\ forall j c, coords v !! j = Some c -> mark c = Some a -> j = i.

Section Resolver.
Context {Dim : Type} `{EqDecision Dim}.
Variable get_dimensionality : option string -> option Dim.

Abbreviation check_axis := (check_axis get_dimensionality).

(** The inner loop of the scan: one coordinate against the four axes. *)
Definition classify (i : nat) (var : Coord)
    (coord_lists : cf_axis -> list candidate) : cf_axis -> list candidate :=
  foldl (fun ls a =>
           if check_axis var (axes_to_check a)
           then <[a := ls a ++ [(i, var)]]> ls else ls)
        coord_lists cf_axes.

(** The outer loop, over the coordinates from position [i] on. *)
Fixpoint scan (i : nat) (cs : list Coord)
    (coord_lists : cf_axis -> list candidate) : cf_axis -> list candidate :=
  match cs with
  | [] => coord_lists
  | var :: cs' => scan (S i) cs' (classify i var coord_lists)
  end.

(** The two comprehensions of [_resolve_axis_conflict]. *)
Definition projection_coords (cands : list candidate) : list candidate :=
  filter (fun c : candidate => check_axis c.2 [ax_x; ax_y] = true) cands.

Definition dimension_coords (cands : list candidate) : list candidate :=
  filter (fun c : candidate => is_dimension_coord c.2 = true) cands.

(** [_resolve_axis_conflict]: the new value of [coord_lists[axis]] and the
    warnings issued. *)
Definition _resolve_axis_conflict (v : DataArray) (a : cf_axis)
    (cands : list candidate) : list candidate * list string :=
  if is_horizontal a && bool_decide (length (projection_coords cands) = 1)
  then (projection_coords cands, [])
  else
    if bool_decide (length (dimension_coords cands) = 1)
    then (dimension_coords cands, [])
    else ([], [ambiguity_warning a v]).

(** One turn of the loop over [axis_conflicts]: [coord_lists] and the
    warnings so far, then the call for [a]. *)
Definition conflict_step (v : DataArray)
    (acc : (cf_axis -> list candidate) * list string) (a : cf_axis)
    : (cf_axis -> list candidate) * list string :=
  let '(l, w') := _resolve_axis_conflict v a (acc.1 a) in
  (<[a := l]> (acc.1), acc.2 ++ w').

(** The loop over [axis_conflicts]. *)
Definition resolve_conflicts (v : DataArray)
    (coord_lists : cf_axis -> list candidate)
    : (cf_axis -> list candidate) * list string :=
  let axis_conflicts :=
    filter (fun a => 1 < length (coord_lists a)) cf_axes in
  foldl (conflict_step v) (coord_lists, []) axis_conflicts.

(** [coord_lists] when the scan of the coordinates is over. *)
Definition coord_lists (v : DataArray) : cf_axis -> list candidate :=
  scan 0 (coords v) (fun _ => []).

(** [_generate_coordinate_map]: the map and the warnings issued. *)
Definition _generate_coordinate_map (v : DataArray)
    : (cf_axis -> option candidate) * list string :=
  let '(ls, w) := resolve_conflicts v (coord_lists v) in
  (fun a => head (ls a), w).

(** What becomes of [coord_lists[a]]: resolved when it holds a conflict,
    left alone otherwise; with the warnings of that resolution. *)
Definition resolved (v : DataArray) (a : cf_axis) : list candidate * list string :=
  if decide (1 < length (coord_lists v a))
  then _resolve_axis_conflict v a (coord_lists v a)
  else (coord_lists v a, []).

(** The scan leaves two or more candidates for [a], and neither rule of
    [_resolve_axis_conflict] singles one out. *)
Definition ambiguous (v : DataArray) (a : cf_axis) : Prop :=
  1 < length (coord_lists v a)
  /\ ~ (is_horizontal a = true /\ length (projection_coords (coord_lists v a)) = 1)
  /\ length (dimension_coords (coord_lists v a)) <> 1.

(** ** The cache *)

(** [any(coord.attrs.get('_metpy_axis') == axis for coord in coords)] *)
Definition any_marked (a : string) (v : DataArray) : bool :=
  existsb (fun c => bool_decide (mark c = Some a)) (coords v).

(** One turn of the loop over [coord_map.items()]. *)
Definition assign_parsed (coord_map : cf_axis -> option candidate)
    (v : DataArray) (a : cf_axis) : DataArray :=
  match coord_map a with
  | Some (i, _) =>
      if negb (any_marked (cf_str a) v) then set_mark i (cf_str a) v else v
  | None => v
  end.

(** [_metpy_axis_search]; the coordinate returned is given by its position. *)
Definition _metpy_axis_search (a : cf_axis) : M (option nat) := fun v =>
  match list_find (fun c => mark c = Some (cf_str a)) (coords v) with
  | Some (i, _) => (v, [], Ok (Some i))
  | None =>
      let '(coord_map, w) := _generate_coordinate_map v in
      (foldl (assign_parsed coord_map) v cf_axes, w, Ok (fst <$> coord_map a))
  end.

(** [_axis] *)
Definition _axis (axis : string) : M nat :=
  match readable_to_cf_axes axis with
  | Some a =>
      let* coord_var := _metpy_axis_search a in
      match coord_var with
      | Some i => ret i
      | None => raise (AttributeError (axis +:+ " attribute is not available."))
      end
  | None => raise (AttributeError ("'" +:+ axis +:+ "' is not an interpretable axis."))
  end.

(** The identifier handed to [find_axis_name]: an axis number or a string. *)
Inductive axis_id : Type :=
  | AxisNumber (n : Z)
  | AxisString (s : string).

(** [t[n]] on a tuple, with Python's negative positions. *)
Definition py_index {A} (t : list A) (n : Z) : option A :=
  if (0 <=? n)%Z then t !! Z.to_nat n
  else if (- Z.of_nat (length t) <=? n)%Z then t !! Z.to_nat (Z.of_nat (length t) + n)
  else None.

Definition coord_names (v : DataArray) : list string := cname <$> coords v.

Definition invalid_axis_message : string :=
  "Given axis is not valid. Must be an axis number, a dimension "
    +:+ "coordinate name, or a standard axis type.".

(** [find_axis_name] *)
Definition find_axis_name (axis : axis_id) : M string :=
  match axis with
  | AxisNumber n => fun v =>
      match py_index (dims v) n with
      | Some d => ret d v
      | None => raise IndexError v
      end
  | AxisString s => fun v =>
      if negb (bool_decide (s ∈ dims v)) && bool_decide (is_Some (readable_to_cf_axes s))
      then (let* i := _axis s in
            let* v' := self_data_array in
            match coords v' !! i with
            | Some c => ret (cname c)
            | None => raise IndexError
            end) v
      else if bool_decide (s ∈ dims v) && bool_decide (s ∈ coord_names v)
      then ret s v
      else raise (ValueError invalid_axis_message) v
  end.
End Resolver.


(** ** The quantity indexer *)

Section Indexer.
Context {Dim : Type} `{EqDecision Dim}.
Variable get_dimensionality : option string -> option Dim.

(** The units registry again: [units(s)] parses a unit string ([None] for
    [UndefinedUnitError]); [convert m u u'] is [(m * u).to(u').m] ([None]
    for [DimensionalityError]).  [Magnitude] is the type of plain values. *)
Context {Unit Magnitude : Type}.
Variable parse_units : string -> option Unit.
Variable convert : Magnitude -> Unit -> Unit -> option Magnitude.

(** A scalar of a selection: [None], a plain value or a quantity. *)
Inductive value : Type :=
  | VNone
  | VPlain (m : Magnitude)
  | VQuantity (m : Magnitude) (u : Unit).

(** A value of the [indexers] dictionary. *)
Inductive indexer : Type :=
  | IValue (x : value)
  | ISlice (start stop step : value).

(** The [indexers] dictionary, in insertion order. *)
Definition indexers_dict : Type := list (string * indexer).

Fixpoint dict_get (k : string) (d : indexers_dict) : option indexer :=
  match d with
  | [] => None
  | (k', x) :: d' => if String.eqb k' k then Some x else dict_get k d'
  end.

(** [d[k] = x]: in place for a key of [d], at the end for a new key. *)
Fixpoint dict_set (k : string) (x : indexer) (d : indexers_dict) : indexers_dict :=
  match d with
  | [] => [(k, x)]
  | (k', x') :: d' =>
      if String.eqb k' k then (k', x) :: d' else (k', x') :: dict_set k x d'
  end.

(** [del d[k]] *)
Fixpoint dict_del (k : string) (d : indexers_dict) : indexers_dict :=
  match d with
  | [] => []
  | (k', x') :: d' =>
      if String.eqb k' k then d' else (k', x') :: dict_del k d'
  end.

Definition getitem (k : string) (d : indexers_dict) : result indexer :=
  match dict_get k d with
  | Some x => Ok x
  | None => Raise (KeyError k)
  end.

(** [data[coord_name]]: a coordinate of the array, or the index of a
    dimension that has no coordinate, which carries no attributes. *)
Definition data_getitem (v : DataArray) (n : string) : result Coord :=
  match list_find (fun c => cname c = n) (coords v) with
  | Some (_, c) => Ok c
  | None =>
      if bool_decide (n ∈ dims v) then Ok (mkCoord n [n] ∅)
      else Raise (KeyError n)
  end.

(** [coord.metpy.units] *)
Definition declared_units (c : Coord) : string :=
  default "dimensionless" (cattrs c !! "units").

Definition metpy_units (c : Coord) : result Unit :=
  let u := declared_units c in
  match parse_units (if negb (String.eqb u "%") then u else "percent") with
  | Some unit => Ok unit
  | None => Raise UndefinedUnitError
  end.

(** [data[coord_name].metpy.units] *)
Definition coord_units (v : DataArray) (n : string) : result Unit :=
  match data_getitem v n with
  | Ok c => metpy_units c
  | Raise e => Raise e
  end.

(** [_to_magnitude] on a scalar: only a quantity has a [to] method. *)
Definition _to_magnitude (val : value) (unit : Unit) : result value :=
  match val with
  | VQuantity m u =>
      match convert m u unit with
      | Some m' => Ok (VPlain m')
      | None => Raise DimensionalityError
      end
  | _ => Ok val
  end.

(** [_to_magnitude] on a value of the dictionary: a slice has no [to]. *)
Definition _to_magnitude_indexer (x : indexer) (unit : Unit) : result indexer :=
  match x with
  | IValue val =>
      match _to_magnitude val unit with
      | Ok val' => Ok (IValue val')
      | Raise e => Raise e
      end
  | ISlice _ _ _ => Ok x
  end.

(** The body of the loop of [_reassign_quantity_indexer], on a
    [DataArray].  Its first block, "Handle axis types": the key to go on
    with and the dictionary. *)
Definition rename_key (coord_name : string) (indexers : indexers_dict)
    : M (string * indexers_dict) :=
  let* data := self_data_array in
  if negb (bool_decide (coord_name ∈ dims data))
     && bool_decide (is_Some (readable_to_cf_axes coord_name))
  then
    let axis := coord_name in
    let* i := _axis get_dimensionality axis in
    let* data := self_data_array in
    match coords data !! i with
    | Some c =>
        let* x := lift (getitem axis indexers) in
        ret (cname c, dict_del axis (dict_set (cname c) x indexers))
    | None => raise IndexError
    end
  else ret (coord_name, indexers).

(** The blocks "Handle slices of quantities" and "Handle quantities". *)
Definition convert_key (coord_name : string) (indexers : indexers_dict)
    : M indexers_dict :=
  let* data := self_data_array in
  let* x := lift (getitem coord_name indexers) in
  let* indexers :=
    match x with
    | ISlice start stop step =>
        let* unit := lift (coord_units data coord_name) in
        let* start := lift (_to_magnitude start unit) in
        let* stop := lift (_to_magnitude stop unit) in
        let* step := lift (_to_magnitude step unit) in
        ret (dict_set coord_name (ISlice start stop step) indexers)
    | IValue _ => ret indexers
    end in
  let* x := lift (getitem coord_name indexers) in
  let* unit := lift (coord_units data coord_name) in
  let* x := lift (_to_magnitude_indexer x unit) in
  ret (dict_set coord_name x indexers).

Definition reassign_key (coord_name : string) (indexers : indexers_dict)
    : M indexers_dict :=
  let* renamed := rename_key coord_name indexers in
  convert_key renamed.1 renamed.2.

Definition changed_size : exn :=
  RuntimeError "dictionary changed size during iteration".

(** The loop [for coord_name in indexers]: it visits the keys that the
    dictionary has when the loop starts, in their order, and the iterator
    raises when it finds that the size of the dictionary is no longer
    [used], the size at the start. *)
Fixpoint reassign_keys (used : nat) (keys : list string)
    (indexers : indexers_dict) : M indexers_dict :=
  if negb (Nat.eqb (length indexers) used) then raise changed_size
  else
    match keys with
    | [] => ret indexers
    | coord_name :: rest =>
        let* indexers := reassign_key coord_name indexers in
        reassign_keys used rest indexers
    end.

(** [_reassign_quantity_indexer] *)
Definition _reassign_quantity_indexer (indexers : indexers_dict) : M indexers_dict :=
  reassign_keys (length indexers) (fst <$> indexers) indexers.

(** What the translation makes of a scalar, in the words of the
    specification: a quantity becomes its magnitude in the unit of the
    coordinate, anything else, [None] included, stays as it is. *)
Definition converted_value (unit : Unit) (val val' : value) : Prop :=
  match val with
  | VQuantity m u => exists m', convert m u unit = Some m' /\ val' = VPlain m'
  | _ => val' = val
  end.

(** The same for a value of the dictionary: a scalar, or a slice part by
    part. *)
Definition converted (unit : Unit) (x x' : indexer) : Prop :=
  match x, x' with
  | IValue val, IValue val' => converted_value unit val val'
  | ISlice start stop step, ISlice start' stop' step' =>
      converted_value unit start start' /\ converted_value unit stop stop'
      /\ converted_value unit step step'
  | _, _ => False
  end.

(** Every quantity of the value can be converted to the unit. *)
Definition convertible_value (unit : Unit) (val : value) : Prop :=
  match val with
  | VQuantity m u => is_Some (convert m u unit)
  | _ => True
  end.

Definition convertible (unit : Unit) (x : indexer) : Prop :=
  match x with
  | IValue val => convertible_value unit val
  | ISlice start stop step =>
      convertible_value unit start /\ convertible_value unit stop
      /\ convertible_value unit step
  end.

(** An entry of the dictionary and its translation: the same key, the
    value converted to the unit that the array declares for that key. *)
Definition translated_entry (v : DataArray) (e e' : string * indexer) : Prop :=
  e.1 = e'.1
  /\ exists unit, coord_units v e.1 = Ok unit /\ converted unit e.2 e'.2.

(** A key that the loop takes as the name of a coordinate or dimension:
    a dimension name, or no axis type. *)
Definition literal_key (v : DataArray) (k : string) : Prop :=
  k ∈ dims v \/ readable_to_cf_axes k = None.
End Indexer.

Arguments VNone {Unit Magnitude}.
Arguments VPlain {Unit Magnitude} m.
Arguments VQuantity {Unit Magnitude} m u.

(** ** [assign_coordinates] *)

(** A coordinate in the mapping handed to [assign_coordinates]: its name,
    or a coordinate object of the array, given by its position. *)
Inductive coord_ref : Type :=
  | ByName (n : string)
  | ByObject (i : nat).

(** What [_fixup_coordinate_map] leaves in the mapping: no coordinate, the
    coordinate at a position of the array, or the index that
    [data_array[name]] builds for a dimension that has no coordinate, whose
    attributes belong to no coordinate of the array. *)
Inductive fixed_ref : Type :=
  | NoCoordinate
  | Attached (i : nat)
  | Detached.

(** [self._data_array[name]], as a reference. *)
Definition getitem_ref (v : DataArray) (n : string) : result fixed_ref :=
  match list_find (fun c => cname c = n) (coords v) with
  | Some (i, _) => Ok (Attached i)
  | None =>
      if bool_decide (n ∈ dims v) then Ok Detached else Raise (KeyError n)
  end.

(** [_fixup_coordinate_map]: every name of the mapping is looked up, in the
    order of the mapping, before anything is written. *)
Fixpoint _fixup_coordinate_map (v : DataArray)
    (coord_map : list (string * option coord_ref))
    : result (list (string * fixed_ref)) :=
  match coord_map with
  | [] => Ok []
  | (axis, r) :: rest =>
      match
        match r with
        | None => Ok NoCoordinate
        | Some (ByObject i) => Ok (Attached i)
        | Some (ByName n) => getitem_ref v n
        end
      with
      | Raise e => Raise e
      | Ok f =>
          match _fixup_coordinate_map v rest with
          | Raise e => Raise e
          | Ok rest' => Ok ((axis, f) :: rest')
          end
      end
  end.

(** One turn of the loop that assigns the [_metpy_axis] attributes. *)
Definition assign_fixed (v : DataArray) (e : string * fixed_ref) : DataArray :=
  match e.2 with
  | Attached i => set_mark i e.1 v
  | _ => v
  end.

Definition clear_mark (c : Coord) : Coord :=
  mkCoord (cname c) (cdims c) (delete metpy_axis_key (cattrs c)).

(** [assign_coordinates]; [None] and the empty mapping clear the marks. *)
Definition assign_coordinates
    (coordinates : option (list (string * option coord_ref))) : M unit := fun v =>
  match coordinates with
  | Some (e :: rest) =>
      match _fixup_coordinate_map v (e :: rest) with
      | Ok fixed => (foldl assign_fixed v fixed, [], Ok tt)
      | Raise err => (v, [], Raise err)
      end
  | _ => (mkDataArray (name v) (dims v) (clear_mark <$> coords v), [], Ok tt)
  end.

(** A method that leaves the array as it is but for the [_metpy_axis]
    attributes of its coordinates, however it ends. *)
Definition marks_only {A : Type} (m : M A) : Prop :=
  forall v, same_array v (final (m v)).

(** ** Whole matches of a pattern *)

(** The whole of [s] matches [r] ([re.fullmatch]); [re_match] asks this of
    some prefix of [s]. *)
Fixpoint full_match (r : regex) (s : string) : bool :=
  match s with
  | EmptyString => nullable r
  | String c s' => full_match (deriv c r) s'
  end.

(** The alternatives of the vertical pattern, [h(ei)?ght] spelled out. *)
Definition vertical_prefixes : list string :=
  ["bottom_top"; "sigma"; "hght"; "height"; "altitude"; "depth"; "isobaric";
   "pres"; "isotherm"].

(** ** A small registry and small arrays, for the examples *)

Definition demo_registry : list (string * string) :=
  [("Pa", "pressure"); ("hPa", "pressure"); ("mbar", "pressure");
   ("m", "length"); ("km", "length"); ("dimensionless", "dimensionless");
   ("percent", "dimensionless");
   ("degree_north", "dimensionless"); ("degree_N", "dimensionless");
   ("degreeN", "dimensionless"); ("degrees_north", "dimensionless");
   ("degrees_N", "dimensionless"); ("degreesN", "dimensionless");
   ("degree_east", "dimensionless"); ("degree_E", "dimensionless");
   ("degreeE", "dimensionless"); ("degrees_east", "dimensionless");
   ("degrees_E", "dimensionless"); ("degreesE", "dimensionless")].

Fixpoint assoc (k : string) (l : list (string * string)) : option string :=
  match l with
  | [] => None
  | (k', x) :: l' => if String.eqb k' k then Some x else assoc k l'
  end.

(** The dimensionality of a unit string; a missing unit is dimensionless. *)
Definition demo_dimensionality (u : option string) : option string :=
  match u with
  | None => Some "dimensionless"
  | Some s => assoc s demo_registry
  end.

(** Units of the small registry are their names; only the defined ones parse. *)
Definition demo_parse (s : string) : option string :=
  match assoc s demo_registry with
  | Some _ => Some s
  | None => None
  end.

Definition demo_scale (u : string) : Z :=
  if String.eqb u "hPa" || String.eqb u "mbar" then 100
  else if String.eqb u "km" then 1000
  else 1.

(** Conversion between units of one dimensionality, on integer magnitudes
    that the target unit divides. *)
Definition demo_convert (m : Z) (u u' : string) : option Z :=
  match assoc u demo_registry, assoc u' demo_registry with
  | Some d, Some d' =>
      if String.eqb d d' then Some (m * demo_scale u / demo_scale u')%Z else None
  | _, _ => None
  end.

(** The spellings accepted by name are units that the registry defines. *)
Definition defines_accepted_names {Dim : Type}
    (get_dimensionality : option string -> option Dim) : Prop :=
  forall a names u,
    units_criteria a = Some (MatchName names) -> u ∈ names ->
    is_Some (get_dimensionality (Some u)).

(** The error raised for an axis that has no coordinate. *)
Definition not_available (a : cf_axis) : exn :=
  AttributeError (cf_to_readable_axes a +:+ " attribute is not available.").

Definition coord (n : string) (d : list string) (a : list (string * string)) : Coord :=
  mkCoord n d (list_to_map a).

(** A coordinate named [foo], in furlongs, whose standard name is a CF
    vertical name. *)
Definition foo_air_pressure : Coord :=
  coord "foo" ["foo"] [("standard_name", "air_pressure"); ("units", "furlong")].

(** A coordinate in furlongs whose name is a height. *)
Definition height_in_furlongs : Coord :=
  coord "Height_above_ground" ["z"] [("units", "furlong")].

(** A coordinate named [foo] whose standard name is [im]. *)
Definition foo_im : Coord := coord "foo" ["foo"] [("standard_name", "im")].


(** An array of two dimension coordinates, none of them marked. *)
Definition plain_array : DataArray :=
  mkDataArray "temperature" ["time"; "height"]
    [coord "time" ["time"] []; coord "height" ["height"] []].

(** The same array once [assign_coordinates({'T': 'height'})] has assigned
    the time axis to [height] by hand. *)
Definition stale_array : DataArray :=
  mkDataArray "temperature" ["time"; "height"]
    [coord "time" ["time"] [];
     coord "height" ["height"] [("_metpy_axis", "T")]].

(** Three coordinates, none a dimension coordinate and all unmarked: two
    latitudes and a longitude. *)
Definition two_latitudes : DataArray :=
  mkDataArray "temperature" ["a"; "b"]
    [coord "lat" ["a"; "b"] []; coord "lat2" ["a"; "b"] [];
     coord "lon" ["a"; "b"] []].

(** A projected grid that also carries its latitudes and longitudes. *)
Definition projected_grid : DataArray :=
  mkDataArray "temperature" ["y"; "x"]
    [coord "y" ["y"] [("standard_name", "projection_y_coordinate")];
     coord "x" ["x"] [("standard_name", "projection_x_coordinate")];
     coord "lat" ["y"; "x"] [("standard_name", "latitude")];
     coord "lon" ["y"; "x"] [("standard_name", "longitude")]].

(** Coordinates that satisfy no criterion of the table, three of them
    marked by hand, two with the same axis. *)
Definition marked_by_hand : DataArray :=
  mkDataArray "temperature" ["a"; "b"]
    [coord "foo" ["a"] [("_metpy_axis", "X")];
     coord "bar" ["a"] [("_metpy_axis", "Y")];
     coord "baz" ["b"] [("_metpy_axis", "Y")]].

(** Pressure levels in hPa over a latitude. *)
Definition pressure_levels : DataArray :=
  mkDataArray "temperature" ["pressure"; "lat"]
    [coord "pressure" ["pressure"]
       [("standard_name", "air_pressure"); ("units", "hPa")];
     coord "lat" ["lat"] [("units", "degrees_north")]].

(** A coordinate named [foo] whose units are millibars. *)
Definition foo_in_mbar : Coord := coord "foo" ["foo"] [("units", "mbar")].

(** A coordinate named [foo] whose units are spelled [degreesN]. *)
Definition foo_degrees : Coord := coord "foo" ["foo"] [("units", "degreesN")].

(** A coordinate named [XLAT_M] over two other dimensions, with no attribute. *)
Definition xlat_m : Coord := coord "XLAT_M" ["south_north"; "west_east"] [].

(** A coordinate named [foo] whose standard name is the empty string. *)
Definition foo_empty_name : Coord := coord "foo" ["foo"] [("standard_name", "")].

(** Two time coordinates, of which [time] is a dimension coordinate and
    [time2] is not. *)
Definition two_times : DataArray :=
  mkDataArray "temperature" ["time"]
    [coord "time" ["time"] []; coord "time2" ["time"] []].

(** A grid whose dimension coordinates are called [y] and [x] and carry no
    attribute. *)
Definition xy_grid : DataArray :=
  mkDataArray "temperature" ["y"; "x"]
    [coord "y" ["y"] []; coord "x" ["x"] []].

(** A value of a selection that holds no quantity. *)
Definition plain_value {Unit Magnitude : Type}
    (val : value (Unit := Unit) (Magnitude := Magnitude)) : Prop :=
  match val with
  | VQuantity _ _ => False
  | _ => True
  end.

Definition plain_indexer {Unit Magnitude : Type}
    (x : indexer (Unit := Unit) (Magnitude := Magnitude)) : Prop :=
  match x with
  | IValue val => plain_value val
  | ISlice start stop step =>
      plain_value start /\ plain_value stop /\ plain_value step
  end.
(** * Properties *)

(** ** Strings *)

Lemma append_cons (c : ascii) (a b : string) :
  String c a +:+ b = String c (a +:+ b).
Proof. reflexivity. Qed.

Lemma append_nil (b : string) : "" +:+ b = b.
Proof. reflexivity. Qed.

Lemma prefix_spec (a s : string) :
  String.prefix a s = true <-> exists post, s = a +:+ post.
Proof.
  revert s; induction a as [|c a IH]; intros s.
  - split; [intros _; by exists s | intros _; by destruct s].
  - destruct s as [|c' s]; simpl.
    + split; [done | intros [post Hp]; discriminate].
    + setoid_rewrite append_cons.
      destruct (ascii_dec c c') as [->|Hne].
      * rewrite IH. split; intros [post Hp]; exists post; congruence.
      * split; [done | intros [post Hp]; congruence].
Qed.

Lemma str_in_spec (a s : string) :
  str_in a s = true <-> exists pre post, s = pre +:+ a +:+ post.
Proof.
  induction s as [|c s IH].
  - unfold str_in. rewrite orb_false_r, prefix_spec. split.
    + intros [post Hp]. by exists "", post.
    + intros ([|c pre] & post & Hp); [by exists post | discriminate].
  - change (str_in a (String c s))
      with (String.prefix a (String c s) || str_in a s).
    rewrite orb_true_iff, prefix_spec, IH. split.
    + intros [[post Hp]|(pre & post & Hp)].
      * by exists "", post.
      * exists (String c pre), post. by rewrite append_cons, Hp.
    + intros ([|c' pre] & post & Hp).
      * left. by exists post.
      * right. exists pre, post. rewrite append_cons in Hp. congruence.
Qed.

Lemma str_in_refl (s : string) : str_in s s = true.
Proof.
  apply str_in_spec. exists "", "". rewrite append_nil.
  induction s as [|c s IH]; [done |]. rewrite append_cons. congruence.
Qed.

Lemma existsb_eqb_elem (u : string) (l : list string) :
  existsb (String.eqb u) l = true <-> u ∈ l.
Proof.
  rewrite existsb_exists, list_elem_of_In. split.
  - intros (z & Hin & Heq). apply String.eqb_eq in Heq. by subst.
  - intros Hin. exists u. split; [done | apply String.eqb_refl].
Qed.

(** ** The matcher *)

Section MatcherFacts.
Context {Dim : Type} `{EqDecision Dim}.
Variable get_dimensionality : option string -> option Dim.

Abbreviation check_axis' := (check_axis get_dimensionality).
Abbreviation check_units' := (check_units get_dimensionality).

Lemma check_axis_cons var a rest :
  check_axis' var (a :: rest) =
  check_attrs var a || check_units' var a || check_regex var a
    || check_axis' var rest.
Proof.
  simpl. destruct (check_attrs var a), (check_units' var a),
    (check_regex var a); reflexivity.
Qed.

Lemma check_axis_elem var a axes :
  a ∈ axes ->
  check_attrs var a || check_units' var a || check_regex var a = true ->
  check_axis' var axes = true.
Proof.
  intros Hin Ha. induction axes as [|b rest IH]; [by apply elem_of_nil in Hin |].
  rewrite check_axis_cons. apply elem_of_cons in Hin as [->|Hin].
  - by rewrite Ha.
  - rewrite IH by done. apply orb_true_r.
Qed.

Lemma check_attrs_hit var a criterion value :
  criterion ∈ attr_criteria ->
  cattrs var !! criterion = Some value ->
  py_in value (attr_criteria_value criterion a) = true ->
  check_attrs var a = true.
Proof.
  intros Hc Hv Hin. unfold check_attrs. apply existsb_exists.
  exists criterion. split; [by apply list_elem_of_In |].
  rewrite Hv. exact Hin.
Qed.

(** The units rule of an axis does not match a unit that the registry
    fails on, unless the rule compares spellings and the spelling is listed. *)
Lemma check_units_undefined var a :
  get_dimensionality (cattrs var !! "units") = None ->
  (forall names u, units_criteria a = Some (MatchName names) ->
                   cattrs var !! "units" = Some u -> u ∉ names) ->
  check_units' var a = false.
Proof.
  intros Hundef Hnames. unfold check_units.
  destruct (units_criteria a) as [[ref|names]|] eqn:Hrule; [| |done].
  - by rewrite Hundef.
  - destruct (cattrs var !! "units") as [u|] eqn:Hu; [|done].
    apply not_true_is_false. rewrite existsb_eqb_elem. by eapply Hnames.
Qed.
End MatcherFacts.

(** C4: a coordinate whose [standard_name] attribute equals an entry of the
    criteria table for an axis (the string of that axis, or a member of its
    set) satisfies [check_axis] for every list of axes that contains the
    axis, whatever its name, its units and the units registry. *)
Theorem check_axis_standard_name_exact {Dim : Type} `{EqDecision Dim}
    (get_dimensionality : option string -> option Dim)
    (var : Coord) (a : axis_name) (value : string) (axes : list axis_name) :
  cattrs var !! "standard_name" = Some value ->
  (standard_name_criteria a = CStr value
   \/ exists l, standard_name_criteria a = CSet l /\ value ∈ l) ->
  a ∈ axes ->
  check_axis get_dimensionality var axes = true.
Proof.
  intros Hattr Hentry Hin. apply check_axis_elem with a; [done |].
  rewrite (check_attrs_hit var a "standard_name" value); [done | | done |].
  - apply list_elem_of_In. simpl. auto.
  - change (attr_criteria_value "standard_name" a) with (standard_name_criteria a).
    destruct Hentry as [-> | (l & -> & Hl)]; simpl.
    + apply str_in_refl.
    + by apply existsb_eqb_elem.
Qed.

Lemma check_axis_standard_name_exact_witness :
  check_axis demo_dimensionality foo_air_pressure (axes_to_check cfZ) = true.
Proof.
  apply (check_axis_standard_name_exact demo_dimensionality foo_air_pressure
           ax_vertical "air_pressure" (axes_to_check cfZ)).
  - reflexivity.
  - right. eexists. split; [reflexivity |]. apply list_elem_of_In. simpl. auto.
  - apply list_elem_of_In. simpl. auto.
Defined.

Lemma demo_defines_accepted_names : defines_accepted_names demo_dimensionality.
Proof.
  intros a names u Hrule Hu.
  destruct a; simpl in Hrule; try discriminate; injection Hrule as <-;
    repeat (apply elem_of_cons in Hu as [->|Hu]; [by eexists |]);
    by apply elem_of_nil in Hu.
Qed.



(** C9: where the table holds a single string for an attribute and an axis,
    the test [value in string] is Python's substring test: a coordinate
    whose attribute value occurs in that string as a contiguous run (the
    whole string is one such run) satisfies [check_axis] for every list of
    axes containing the axis; so a [standard_name] of [im], which is not
    [time], matches the time axis. *)
Theorem check_axis_string_entry_substring {Dim : Type} `{EqDecision Dim}
    (get_dimensionality : option string -> option Dim) :
  (forall (var : Coord) (criterion : string) (a : axis_name)
          (s value : string) (axes : list axis_name),
      criterion ∈ attr_criteria ->
      attr_criteria_value criterion a = CStr s ->
      cattrs var !! criterion = Some value ->
      value <> "" ->
      (exists pre post, s = pre +:+ value +:+ post) ->
      a ∈ axes ->
      check_axis get_dimensionality var axes = true)
  /\ (forall var : Coord,
      cattrs var !! "standard_name" = Some "im" ->
      "im" <> "time" /\ check_axis get_dimensionality var (axes_to_check cfT) = true).
Proof.
  assert (Hgen : forall (var : Coord) (criterion : string) (a : axis_name)
          (s value : string) (axes : list axis_name),
      criterion ∈ attr_criteria ->
      attr_criteria_value criterion a = CStr s ->
      cattrs var !! criterion = Some value ->
      (exists pre post, s = pre +:+ value +:+ post) ->
      a ∈ axes ->
      check_axis get_dimensionality var axes = true).
  { intros var criterion a s value axes Hc Hs Hv Hsub Hin.
    apply check_axis_elem with a; [done |].
    rewrite (check_attrs_hit var a criterion value); [done | done | done |].
    rewrite Hs. simpl. by apply str_in_spec. }
  split.
  - intros var criterion a s value axes Hc Hs Hv _ Hsub Hin. eauto.
  - intros var Hv. split; [discriminate |].
    apply (Hgen var "standard_name" ax_time "time" "im").
    + apply list_elem_of_In. simpl. auto.
    + reflexivity.
    + exact Hv.
    + by exists "t", "e".
    + apply list_elem_of_In. simpl. auto.
Qed.

Lemma check_axis_string_entry_substring_witness :
  "im" <> "time" /\ check_axis demo_dimensionality foo_im (axes_to_check cfT) = true.
Proof.
  apply (proj2 (check_axis_string_entry_substring demo_dimensionality) foo_im).
  reflexivity.
Defined.

(** ** Coordinates up to their cache mark *)

Lemma same_meta_refl c : same_meta c c.
Proof. by repeat split. Qed.

Lemma same_meta_sym c c' : same_meta c c' -> same_meta c' c.
Proof. intros (Hn & Hd & Ha). repeat split; try done. intros k Hk. by rewrite Ha. Qed.

Lemma same_meta_trans c1 c2 c3 : same_meta c1 c2 -> same_meta c2 c3 -> same_meta c1 c3.
Proof.
  intros (Hn & Hd & Ha) (Hn' & Hd' & Ha'). repeat split; try congruence.
  intros k Hk. by rewrite Ha, Ha'.
Qed.

Lemma same_meta_set_mark c a : same_meta c (set_attr metpy_axis_key a c).
Proof. repeat split. intros k Hk. simpl. by rewrite lookup_insert_ne. Qed.

Lemma mark_set_attr c a : mark (set_attr metpy_axis_key a c) = Some a.
Proof. unfold mark. simpl. by rewrite lookup_insert_eq. Qed.

Lemma same_array_refl v : same_array v v.
Proof.
  repeat split. apply Forall2_same_length_lookup_2; [done |].
  intros i c c' Hc Hc'. assert (c = c') as -> by congruence. apply same_meta_refl.
Qed.

Lemma same_array_trans v1 v2 v3 : same_array v1 v2 -> same_array v2 v3 -> same_array v1 v3.
Proof.
  intros (Hn & Hd & Hc) (Hn' & Hd' & Hc'). repeat split; try congruence.
  eapply Forall2_trans; [| exact Hc | exact Hc']. apply same_meta_trans.
Qed.

Lemma same_array_set_mark i a v : same_array v (set_mark i a v).
Proof.
  repeat split. simpl. apply Forall2_same_length_lookup_2.
  - by rewrite length_alter.
  - intros j c c' Hc Hc'. rewrite list_lookup_alter in Hc'.
    case_decide; subst.
    + rewrite Hc in Hc'. injection Hc' as <-. apply same_meta_set_mark.
    + assert (c = c') as -> by congruence. apply same_meta_refl.
Qed.

Lemma same_array_lookup v v' j c' :
  same_array v v' -> coords v' !! j = Some c' ->
  exists c, coords v !! j = Some c /\ same_meta c c'.
Proof.
  intros (_ & _ & Hc) Hj. destruct (Forall2_lookup_r _ _ _ _ _ Hc Hj) as (c & ? & ?).
  by exists c.
Qed.

Lemma same_array_lookup_l v v' j c :
  same_array v v' -> coords v !! j = Some c ->
  exists c', coords v' !! j = Some c' /\ same_meta c c'.
Proof.
  intros (_ & _ & Hc) Hj. destruct (Forall2_lookup_l _ _ _ _ _ Hc Hj) as (c' & ? & ?).
  by exists c'.
Qed.

Section ResolverFacts.
Context {Dim : Type} `{EqDecision Dim}.
Variable get_dimensionality : option string -> option Dim.

Abbreviation check := (check_axis get_dimensionality).

Lemma check_attrs_same_meta c c' a :
  same_meta c c' -> check_attrs c a = check_attrs c' a.
Proof.
  intros (_ & _ & Ha). unfold check_attrs, attr_criteria. simpl.
  rewrite !Ha by done. reflexivity.
Qed.

Lemma check_units_same_meta c c' a :
  same_meta c c' ->
  check_units get_dimensionality c a = check_units get_dimensionality c' a.
Proof.
  intros (_ & _ & Ha). unfold check_units. rewrite !Ha by done. reflexivity.
Qed.

Lemma check_axis_same_meta c c' axes :
  same_meta c c' -> check c axes = check c' axes.
Proof.
  intros Hs. induction axes as [|a rest IH]; [done |].
  rewrite !check_axis_cons, IH, (check_attrs_same_meta c c'),
    (check_units_same_meta c c') by done.
  unfold check_regex. by destruct Hs as (-> & _).
Qed.

Lemma is_dimension_coord_same_meta c c' :
  same_meta c c' -> is_dimension_coord c = is_dimension_coord c'.
Proof. intros (Hn & Hd & _). unfold is_dimension_coord. by rewrite Hn, Hd. Qed.

(** *** The scan *)

Lemma classify_fold (p : cf_axis -> bool) (e : candidate)
    (ls : cf_axis -> list candidate) (a : cf_axis) :
  foldl (fun ls a => if p a then <[a := ls a ++ [e]]> ls else ls) ls cf_axes a
  = ls a ++ (if p a then [e] else []).
Proof.
  unfold cf_axes. simpl.
  destruct (p cfT) eqn:HT, (p cfZ) eqn:HZ, (p cfY) eqn:HY, (p cfX) eqn:HX;
    destruct a;
    rewrite ?HT, ?HZ, ?HY, ?HX;
    repeat first [ rewrite fn_lookup_insert
                 | rewrite fn_lookup_insert_ne by discriminate ];
    rewrite ?app_nil_r; reflexivity.
Qed.

Lemma classify_spec i var ls a :
  classify get_dimensionality i var ls a
  = ls a ++ (if check var (axes_to_check a) then [(i, var)] else []).
Proof.
  unfold classify.
  apply (classify_fold (fun a => check var (axes_to_check a)) (i, var)).
Qed.

Lemma scan_spec cs : forall i ls a,
  scan get_dimensionality i cs ls a
  = ls a ++ matching (fun c => check c (axes_to_check a)) i cs.
Proof.
  induction cs as [|c cs IH]; intros i ls a; simpl.
  - by rewrite app_nil_r.
  - rewrite IH, classify_spec, <- app_assoc. reflexivity.
Qed.

Lemma coord_lists_spec v a :
  coord_lists get_dimensionality v a
  = matching (fun c => check c (axes_to_check a)) 0 (coords v).
Proof. unfold coord_lists. by rewrite scan_spec. Qed.

Lemma matching_lookup p cs : forall i j c,
  (j, c) ∈ matching p i cs -> i <= j /\ cs !! (j - i) = Some c /\ p c = true.
Proof.
  induction cs as [|c0 cs IH]; intros i j c Hin; simpl in Hin.
  - by apply elem_of_nil in Hin.
  - apply elem_of_app in Hin as [Hin|Hin].
    + destruct (p c0) eqn:Hp; [| by apply elem_of_nil in Hin].
      apply list_elem_of_singleton in Hin. injection Hin as -> ->.
      by rewrite Nat.sub_diag.
    + apply IH in Hin as (Hle & Hl & Hp). split; [lia |]. split; [| done].
      replace (j - i) with (S (j - S i)) by lia. done.
Qed.

Lemma matching_related p cs cs' :
  (forall c c', same_meta c c' -> p c = p c') ->
  Forall2 same_meta cs cs' ->
  forall i, Forall2 same_candidate (matching p i cs) (matching p i cs').
Proof.
  intros Hp Hcs. induction Hcs as [|c c' cs cs' Hc Hcs IH]; intros i; simpl.
  - constructor.
  - rewrite <- (Hp c c' Hc). destruct (p c); simpl; [constructor |]; auto.
    by split.
Qed.

Lemma coord_lists_related v v' a :
  same_array v v' ->
  Forall2 same_candidate (coord_lists get_dimensionality v a)
                         (coord_lists get_dimensionality v' a).
Proof.
  intros (_ & _ & Hc). rewrite !coord_lists_spec.
  apply matching_related; [| done].
  intros c c' Hs. by apply check_axis_same_meta.
Qed.

Lemma coord_lists_lookup v a j c :
  (j, c) ∈ coord_lists get_dimensionality v a -> coords v !! j = Some c.
Proof.
  rewrite coord_lists_spec. intros Hin.
  apply matching_lookup in Hin as (_ & Hl & _). by rewrite Nat.sub_0_r in Hl.
Qed.
(** *** The conflicts *)

Abbreviation resolve := (_resolve_axis_conflict get_dimensionality).

Lemma projection_coords_related l l' :
  Forall2 same_candidate l l' ->
  Forall2 same_candidate (projection_coords get_dimensionality l)
                         (projection_coords get_dimensionality l').
Proof.
  intros Hl. apply (Forall2_filter _ _ _ l l'); [| done].
  intros p q (_ & Hs). by rewrite (check_axis_same_meta _ _ _ Hs).
Qed.

Lemma dimension_coords_related l l' :
  Forall2 same_candidate l l' ->
  Forall2 same_candidate (dimension_coords l) (dimension_coords l').
Proof.
  intros Hl. apply (Forall2_filter _ _ _ l l'); [| done].
  intros p q (_ & Hs). by rewrite (is_dimension_coord_same_meta _ _ Hs).
Qed.

Lemma resolve_related v v' a l l' :
  name v = name v' -> Forall2 same_candidate l l' ->
  Forall2 same_candidate (resolve v a l).1 (resolve v' a l').1
  /\ (resolve v a l).2 = (resolve v' a l').2.
Proof.
  intros Hn Hl. unfold _resolve_axis_conflict.
  pose proof (projection_coords_related l l' Hl) as Hp.
  pose proof (dimension_coords_related l l' Hl) as Hd.
  rewrite <- (Forall2_length _ _ _ Hp), <- (Forall2_length _ _ _ Hd).
  destruct (is_horizontal a && _); [done |].
  destruct (bool_decide _); [done |].
  split; [constructor |]. unfold ambiguity_warning. by rewrite Hn.
Qed.

Abbreviation cstep := (conflict_step get_dimensionality).

Lemma resolve_fold v (ls0 : cf_axis -> list candidate) (l : list cf_axis) :
  NoDup l ->
  forall ls w, (forall a, a ∈ l -> ls a = ls0 a) ->
  let r := foldl (cstep v) (ls, w)
             (filter (fun a => 1 < length (ls0 a)) l) in
  (forall a, r.1 a =
     if decide (a ∈ l /\ 1 < length (ls0 a)) then (resolve v a (ls0 a)).1 else ls a)
  /\ r.2 = w ++ flat_map (fun a => if decide (1 < length (ls0 a))
                                   then (resolve v a (ls0 a)).2 else []) l.
Proof.
  induction 1 as [|b l Hb Hnd IH]; intros ls w Hls.
  - simpl. split; [done | by rewrite app_nil_r].
  - cbn [flat_map]. rewrite filter_cons.
    destruct (decide (1 < length (ls0 b))) as [Hlen|Hlen].
    + cbn [foldl].
      destruct (resolve v b (ls0 b)) as [lb wb] eqn:Hres.
      assert (Hstep : cstep v (ls, w) b = (<[b := lb]> ls, w ++ wb)).
      { unfold conflict_step. cbn [fst snd].
        rewrite (Hls b) by apply list_elem_of_here. by rewrite Hres. }
      rewrite Hstep.
      destruct (IH (<[b := lb]> ls) (w ++ wb)) as [IH1 IH2].
      { intros a Ha. rewrite fn_lookup_insert_ne by (intros ->; done).
        apply Hls. by apply list_elem_of_further. }
      split.
      * intros a. rewrite IH1.
        destruct (decide (a ∈ l /\ _)) as [[Hin HP]|Hn1],
                 (decide (a ∈ b :: l /\ _)) as [[Hin' HP']|Hn2].
        -- reflexivity.
        -- exfalso. apply Hn2. split; [by apply list_elem_of_further | done].
        -- apply elem_of_cons in Hin' as [->|Hin'].
           ++ by rewrite fn_lookup_insert, Hres.
           ++ exfalso. by apply Hn1.
        -- apply fn_lookup_insert_ne. intros ->. apply Hn2.
           split; [apply list_elem_of_here | done].
      * rewrite IH2. by rewrite app_assoc.
    + destruct (IH ls w) as [IH1 IH2].
      { intros a Ha. apply Hls. by apply list_elem_of_further. }
      split.
      * intros a. rewrite IH1.
        destruct (decide (a ∈ l /\ _)) as [[Hin HP]|Hn1],
                 (decide (a ∈ b :: l /\ _)) as [[Hin' HP']|Hn2].
        -- reflexivity.
        -- exfalso. apply Hn2. split; [by apply list_elem_of_further | done].
        -- apply elem_of_cons in Hin' as [->|Hin']; [done |].
           exfalso. by apply Hn1.
        -- reflexivity.
      * rewrite IH2. reflexivity.
Qed.

Lemma cf_axes_all a : a ∈ cf_axes.
Proof. apply list_elem_of_In. destruct a; simpl; auto. Qed.

Lemma cf_axes_nodup : NoDup cf_axes.
Proof. apply NoDup_ListNoDup. repeat constructor; simpl; intuition discriminate. Qed.

Abbreviation generate := (_generate_coordinate_map get_dimensionality).
Abbreviation resolved' := (resolved get_dimensionality).

(** The map holds, for each axis, the first candidate left by the
    resolution; the warnings are those of the four axes in order. *)
Lemma generate_spec v :
  (forall a, (generate v).1 a = head (resolved' v a).1)
  /\ (generate v).2 = flat_map (fun a => (resolved' v a).2) cf_axes.
Proof.
  unfold _generate_coordinate_map, resolve_conflicts.
  pose proof (resolve_fold v (coord_lists get_dimensionality v) cf_axes
                cf_axes_nodup (coord_lists get_dimensionality v) []
                (fun _ _ => eq_refl)) as Hfold.
  cbv zeta in Hfold. 
  destruct (foldl _ _ _) as [ls w]. destruct Hfold as [H1 H2].
  simpl in H1, H2 |- *. split.
  - intros a. rewrite H1. unfold resolved.
    clear H1 H2.
    destruct (decide (1 < length (coord_lists get_dimensionality v a))) as [Hlen|Hlen];
      destruct (decide (_ /\ _)) as [Hc|Hc]; try reflexivity; exfalso.
    + apply Hc. split; [apply cf_axes_all | done].
    + by destruct Hc.
  - rewrite H2. unfold resolved. simpl.
    repeat destruct (decide (1 < length _)); reflexivity.
Qed.

Lemma resolved_related v v' a :
  same_array v v' ->
  Forall2 same_candidate (resolved' v a).1 (resolved' v' a).1
  /\ (resolved' v a).2 = (resolved' v' a).2.
Proof.
  intros Hs. pose proof (coord_lists_related v v' a Hs) as Hl.
  unfold resolved. rewrite <- (Forall2_length _ _ _ Hl).
  destruct (decide (1 < length _)); [| done].
  apply resolve_related; [by destruct Hs | done].
Qed.

(** The resolver does not read the cache marks. *)
Lemma generate_related v v' :
  same_array v v' ->
  (forall a, fst <$> (generate v).1 a = fst <$> (generate v').1 a)
  /\ (generate v).2 = (generate v').2.
Proof.
  intros Hs. destruct (generate_spec v) as [H1 H2], (generate_spec v') as [H1' H2'].
  split.
  - intros a. rewrite H1, H1'.
    destruct (resolved_related v v' a Hs) as [Hl _].
    destruct Hl as [|p q ? ? [Hpq _] _]; simpl; [done | by rewrite Hpq].
  - rewrite H2, H2'. unfold cf_axes. simpl.
    by rewrite !(proj2 (resolved_related v v' _ Hs)).
Qed.

Lemma resolve_subset v a l c :
  c ∈ (resolve v a l).1 -> c ∈ l.
Proof.
  unfold _resolve_axis_conflict, projection_coords, dimension_coords.
  destruct (is_horizontal a && _); simpl.
  - intros Hin. by apply list_elem_of_filter in Hin as [_ ?].
  - destruct (bool_decide _); simpl.
    + intros Hin. by apply list_elem_of_filter in Hin as [_ ?].
    + intros Hin. by apply elem_of_nil in Hin.
Qed.

(** A coordinate of the map is a coordinate of the array, at its position. *)
Lemma generate_lookup v a j c :
  (generate v).1 a = Some (j, c) -> coords v !! j = Some c.
Proof.
  rewrite (proj1 (generate_spec v)). intros Hhead.
  apply (coord_lists_lookup v a).
  assert (Hin : (j, c) ∈ (resolved' v a).1).
  { destruct (resolved' v a).1; [done |]. injection Hhead as ->. apply list_elem_of_here. }
  unfold resolved in Hin. destruct (decide _); [| done].
  by apply resolve_subset in Hin.
Qed.
End ResolverFacts.

(** ** The cache *)

Lemma cf_str_inj a b : cf_str a = cf_str b -> a = b.
Proof. by destruct a, b. Qed.

Lemma readable_of_cf a : readable_to_cf_axes (cf_to_readable_axes a) = Some a.
Proof. by destruct a. Qed.

Lemma any_marked_true a v :
  any_marked a v = true <-> exists j c, coords v !! j = Some c /\ mark c = Some a.
Proof.
  unfold any_marked. rewrite existsb_exists. split.
  - intros (c & Hin & Hm). apply list_elem_of_In, list_elem_of_lookup in Hin as [j Hj].
    apply bool_decide_eq_true in Hm. by exists j, c.
  - intros (j & c & Hj & Hm). exists c. split.
    + apply list_elem_of_In, list_elem_of_lookup. by exists j.
    + by apply bool_decide_eq_true.
Qed.

Lemma any_marked_false a v :
  any_marked a v = false <-> forall j c, coords v !! j = Some c -> mark c <> Some a.
Proof.
  rewrite <- not_true_iff_false, any_marked_true. split.
  - intros Hn j c Hj Hm. apply Hn. by exists j, c.
  - intros Hall (j & c & Hj & Hm). by apply (Hall j c).
Qed.

Lemma list_find_mark_None a v :
  list_find (fun c => mark c = Some a) (coords v) = None <-> any_marked a v = false.
Proof.
  rewrite list_find_None, any_marked_false, Forall_lookup. reflexivity.
Qed.

Lemma set_mark_lookup i a v j c' :
  coords (set_mark i a v) !! j = Some c' ->
  exists c, coords v !! j = Some c
    /\ ((j = i /\ c' = set_attr metpy_axis_key a c) \/ (j <> i /\ c' = c)).
Proof.
  simpl. rewrite list_lookup_alter. case_decide as Hij.
  - subst. destruct (coords v !! j) as [c|]; [| done]. simpl.
    intros [= <-]. exists c. auto.
  - intros Hj. exists c'. split; [done |]. right. split; [congruence | done].
Qed.

Lemma set_mark_lookup_eq i a v c :
  coords v !! i = Some c ->
  coords (set_mark i a v) !! i = Some (set_attr metpy_axis_key a c).
Proof. intros Hi. simpl. by rewrite list_lookup_alter_eq, Hi. Qed.

Section CacheFacts.
Context {Dim : Type} `{EqDecision Dim}.
Variable get_dimensionality : option string -> option Dim.

Abbreviation generate := (_generate_coordinate_map get_dimensionality).
Abbreviation search := (_metpy_axis_search get_dimensionality).

Implicit Types (m : cf_axis -> option candidate) (v : DataArray)
  (a b : cf_axis) (l : list cf_axis).

(** *** One turn of the loop that writes the marks *)

Lemma assign_parsed_effect m v a j c' :
  coords (assign_parsed m v a) !! j = Some c' ->
  exists c, coords v !! j = Some c
    /\ (c' = c
        \/ (fst <$> m a = Some j /\ any_marked (cf_str a) v = false
            /\ c' = set_attr metpy_axis_key (cf_str a) c)).
Proof.
  unfold assign_parsed. destruct (m a) as [[i c0]|]; [| by eauto].
  destruct (any_marked (cf_str a) v) eqn:Hany; simpl; [by eauto |].
  intros Hj. apply set_mark_lookup in Hj as (c & Hc & [[-> ->]|[Hne ->]]).
  - exists c. split; [done |]. right. by repeat split.
  - exists c. by split; [| left].
Qed.

Lemma assign_parsed_same_array m v a : same_array v (assign_parsed m v a).
Proof.
  unfold assign_parsed. destruct (m a) as [[i c0]|]; [| apply same_array_refl].
  destruct (negb _); [apply same_array_set_mark | apply same_array_refl].
Qed.

Lemma fold_assign_same_array m l : forall v, same_array v (foldl (assign_parsed m) v l).
Proof.
  induction l as [|a l IH]; intros v; simpl; [apply same_array_refl |].
  eapply same_array_trans; [apply assign_parsed_same_array | apply IH].
Qed.

(** After the loop, a coordinate carries the mark it had, or the axis for
    which the map holds that very coordinate. *)
Lemma fold_assign_effect m l : forall v j c',
  coords (foldl (assign_parsed m) v l) !! j = Some c' ->
  exists c, coords v !! j = Some c
    /\ (mark c' = mark c
        \/ exists a, a ∈ l /\ fst <$> m a = Some j /\ mark c' = Some (cf_str a)).
Proof.
  induction l as [|a l IH]; intros v j c' Hj; simpl in Hj; [by eauto |].
  apply IH in Hj as (c1 & Hc1 & Hmark).
  apply assign_parsed_effect in Hc1 as (c & Hc & Hstep).
  exists c. split; [done |].
  destruct Hmark as [Hsame|(b & Hb & Hmb & Hcb)].
  - destruct Hstep as [->|(Hma & _ & ->)]; [by left |].
    right. exists a. rewrite Hsame, mark_set_attr.
    split; [apply list_elem_of_here | done].
  - right. exists b. split; [by apply list_elem_of_further | done].
Qed.

(** *** The mark of one axis through the loop *)

Lemma assign_parsed_unmarked m v a b :
  a <> b -> any_marked (cf_str a) v = false ->
  any_marked (cf_str a) (assign_parsed m v b) = false.
Proof.
  intros Hab Hun. apply any_marked_false. intros j c' Hj Hm.
  apply assign_parsed_effect in Hj as (c & Hc & [->|(_ & _ & ->)]).
  - by apply (proj1 (any_marked_false _ _) Hun j c).
  - rewrite mark_set_attr in Hm. injection Hm as Hm. by apply cf_str_inj in Hm.
Qed.

Lemma fold_assign_unmarked m a l : forall v,
  a ∉ l -> any_marked (cf_str a) v = false ->
  any_marked (cf_str a) (foldl (assign_parsed m) v l) = false.
Proof.
  induction l as [|b l IH]; intros v Hal Hun; simpl; [done |].
  apply not_elem_of_cons in Hal as [Hab Hal].
  apply IH; [done |]. by apply assign_parsed_unmarked.
Qed.

Lemma assign_parsed_marks m v a i c0 :
  m a = Some (i, c0) -> i < length (coords v) ->
  any_marked (cf_str a) v = false ->
  only_at (cf_str a) i (assign_parsed m v a).
Proof.
  intros Hm Hi Hun. unfold assign_parsed. rewrite Hm, Hun. simpl.
  destruct (lookup_lt_is_Some_2 _ _ Hi) as [c Hc]. split.
  - exists (set_attr metpy_axis_key (cf_str a) c).
    split; [by apply set_mark_lookup_eq | apply mark_set_attr].
  - intros j c' Hj Hmark.
    apply set_mark_lookup in Hj as (c1 & Hc1 & [[-> _]|[_ ->]]); [done |].
    by destruct (proj1 (any_marked_false _ _) Hun j c1).
Qed.

Lemma assign_parsed_only_at m v a b i :
  a <> b -> fst <$> m b <> Some i ->
  only_at (cf_str a) i v -> only_at (cf_str a) i (assign_parsed m v b).
Proof.
  intros Hab Hmb [(c & Hc & Hmark) Honly]. split.
  - exists c. split; [| done]. unfold assign_parsed.
    destruct (m b) as [[k c0]|]; [| done].
    destruct (negb _); [| done]. simpl.
    rewrite list_lookup_alter_ne; [done |]. intros ->. by apply Hmb.
  - intros j c' Hj Hm.
    apply assign_parsed_effect in Hj as (c1 & Hc1 & [->|(_ & _ & ->)]).
    + by apply (Honly j c1).
    + rewrite mark_set_attr in Hm. injection Hm as Hm.
      apply cf_str_inj in Hm. by subst.
Qed.

Lemma fold_assign_only_at m a i l : forall v,
  a ∉ l -> (forall b, b <> a -> fst <$> m b <> Some i) ->
  only_at (cf_str a) i v -> only_at (cf_str a) i (foldl (assign_parsed m) v l).
Proof.
  induction l as [|b l IH]; intros v Hal Hm Hv; simpl; [done |].
  apply not_elem_of_cons in Hal as [Hab Hal].
  apply IH; [done | done |].
  apply assign_parsed_only_at; [done | | done]. apply Hm. congruence.
Qed.

Lemma same_array_length v v' : same_array v v' -> length (coords v) = length (coords v').
Proof. intros (_ & _ & Hc). by apply Forall2_length in Hc. Qed.

Lemma fold_assign_marks m a i c0 l : forall v,
  NoDup l -> a ∈ l -> m a = Some (i, c0) -> i < length (coords v) ->
  (forall b, b <> a -> fst <$> m b <> Some i) ->
  any_marked (cf_str a) v = false ->
  only_at (cf_str a) i (foldl (assign_parsed m) v l).
Proof.
  induction l as [|b l IH]; intros v Hnd Hal Hm Hi Hothers Hun; simpl.
  - by apply elem_of_nil in Hal.
  - apply NoDup_cons in Hnd as [Hbl Hnd].
    destruct (decide (a = b)) as [<-|Hab].
    + apply fold_assign_only_at; [done | done |].
      by apply assign_parsed_marks with c0.
    + apply elem_of_cons in Hal as [?|Hal]; [done |].
      apply IH; try done.
      * by rewrite <- (same_array_length _ _ (assign_parsed_same_array m v b)).
      * by apply assign_parsed_unmarked.
Qed.

(** *** The two branches of the search *)

Lemma search_hit a v i c :
  list_find (fun c => mark c = Some (cf_str a)) (coords v) = Some (i, c) ->
  search a v = (v, [], Ok (Some i)).
Proof. intros Hf. unfold _metpy_axis_search. by rewrite Hf. Qed.

Lemma search_miss a v :
  any_marked (cf_str a) v = false ->
  search a v = (foldl (assign_parsed (generate v).1) v cf_axes,
                (generate v).2, Ok (fst <$> (generate v).1 a)).
Proof.
  intros Hun. apply list_find_mark_None in Hun.
  unfold _metpy_axis_search. rewrite Hun. by destruct (generate v).
Qed.

Lemma only_at_find (s : string) i v :
  only_at s i v ->
  exists c, list_find (fun c => mark c = Some s) (coords v) = Some (i, c).
Proof.
  intros [(c & Hc & Hm) Honly]. exists c. apply list_find_Some.
  split; [done |]. split; [done |].
  intros j c' Hj Hlt Hm'. apply (Honly j c') in Hm'; [lia | done].
Qed.

Lemma search_same_array a v : same_array v (final (search a v)).
Proof.
  destruct (any_marked (cf_str a) v) eqn:Hany.
  - apply not_false_iff_true in Hany. rewrite <- list_find_mark_None in Hany.
    destruct (list_find _ (coords v)) as [[i c]|] eqn:Hf; [| done].
    rewrite (search_hit a v i c Hf). apply same_array_refl.
  - rewrite (search_miss a v Hany). apply fold_assign_same_array.
Qed.
End CacheFacts.

(** C10: when some coordinate carries the requested axis as its
    [_metpy_axis] attribute, [_metpy_axis_search] returns the first such
    coordinate in the order of the coordinates, leaves the array as it is
    and issues no warning; nothing is asked of the coordinate but its mark
    (no criterion of the table is consulted, whatever the registry), and
    other coordinates may carry the same mark. *)
Theorem search_cache_hit {Dim : Type} `{EqDecision Dim}
    (get_dimensionality : option string -> option Dim)
    (v : DataArray) (a : cf_axis) :
  (exists j c, coords v !! j = Some c /\ mark c = Some (cf_str a)) ->
  exists i c,
    coords v !! i = Some c /\ mark c = Some (cf_str a)
    /\ (forall j c', coords v !! j = Some c' -> mark c' = Some (cf_str a) -> i <= j)
    /\ _metpy_axis_search get_dimensionality a v = (v, [], Ok (Some i)).
Proof.
  intros Hex. apply any_marked_true in Hex.
  destruct (list_find (fun c => mark c = Some (cf_str a)) (coords v))
    as [[i c]|] eqn:Hf.
  - exists i, c. pose proof Hf as Hf'.
    apply list_find_Some in Hf' as (Hi & Hm & Hfirst).
    split; [done |]. split; [done |]. split.
    + intros j c' Hj Hm'. destruct (decide (i <= j)) as [|Hlt]; [done |].
      exfalso. apply (Hfirst j c'); [done | lia | done].
    + by apply search_hit with c.
  - apply list_find_mark_None in Hf. congruence.
Qed.

Lemma search_cache_hit_witness :
  exists i c,
    coords marked_by_hand !! i = Some c /\ mark c = Some (cf_str cfY)
    /\ (forall j c', coords marked_by_hand !! j = Some c' ->
                     mark c' = Some (cf_str cfY) -> i <= j)
    /\ _metpy_axis_search demo_dimensionality cfY marked_by_hand
       = (marked_by_hand, [], Ok (Some i)).
Proof.
  apply (search_cache_hit demo_dimensionality marked_by_hand cfY).
  exists 2. eexists. split; reflexivity.
Defined.

(** The coordinate returned there satisfies no criterion of the table. *)
Example marked_by_hand_matches_nothing :
  _metpy_axis_search demo_dimensionality cfY marked_by_hand
    = (marked_by_hand, [], Ok (Some 1))
  /\ forall c, c ∈ coords marked_by_hand ->
       check_axis demo_dimensionality c
         [ax_time; ax_vertical; ax_y; ax_lat; ax_x; ax_lon] = false.
Proof.
  split; [reflexivity |]. intros c Hc.
  repeat (apply elem_of_cons in Hc as [->|Hc]; [reflexivity |]).
  by apply elem_of_nil in Hc.
Qed.

(** [stale_array] is what [assign_coordinates] makes of [plain_array]. *)
Example stale_array_assigned :
  assign_coordinates (Some [("T", Some (ByName "height"))]) plain_array
  = (stale_array, [], Ok tt).
Proof. reflexivity. Qed.




(** C8, as stated, fails: on [stale_array] a request for the x axis, which
    the array lacks, is answered twice with no coordinate, and the second
    request writes a mark that the first one did not write. *)
Lemma second_search_writes_a_mark :
  let o1 := _metpy_axis_search demo_dimensionality cfX stale_array in
  let o2 := _metpy_axis_search demo_dimensionality cfX (final o1) in
  returned o1 = Ok None /\ returned o2 = Ok None
  /\ mark <$> coords (final o1) !! 0 = Some None
  /\ mark <$> coords (final o2) !! 0 = Some (Some "T")
  /\ final o2 <> final o1.
Proof.
  repeat split. intros Heq.
  assert (Hm : mark <$> coords
     (final (_metpy_axis_search demo_dimensionality cfX
        (final (_metpy_axis_search demo_dimensionality cfX stale_array)))) !! 0
     = mark <$> coords
     (final (_metpy_axis_search demo_dimensionality cfX stale_array)) !! 0)
    by (by rewrite Heq).
  discriminate Hm.
Qed.

(** C8, amended: two requests in a row for one axis return the same answer;
    when the first one returns a coordinate that the map holds for no other
    axis, that coordinate carries the mark afterwards, and the second
    request is answered from the mark: it leaves every attribute as it is
    and issues no warning. *)
Theorem search_twice {Dim : Type} `{EqDecision Dim}
    (get_dimensionality : option string -> option Dim)
    (v : DataArray) (a : cf_axis) :
  let o1 := _metpy_axis_search get_dimensionality a v in
  let o2 := _metpy_axis_search get_dimensionality a (final o1) in
  returned o2 = returned o1
  /\ forall i,
       returned o1 = Ok (Some i) ->
       (forall b, b <> a ->
          fst <$> (_generate_coordinate_map get_dimensionality v).1 b <> Some i) ->
       any_marked (cf_str a) (final o1) = true
       /\ final o2 = final o1 /\ warned o2 = [].
Proof.
  intros o1 o2. subst o1 o2.
  destruct (any_marked (cf_str a) v) eqn:Hany.
  - (* the first request is answered from a mark *)
    pose proof Hany as Hfind.
    apply not_false_iff_true in Hfind. rewrite <- list_find_mark_None in Hfind.
    destruct (list_find _ (coords v)) as [[i0 c0]|] eqn:Hf; [| done].
    rewrite (search_hit get_dimensionality a v i0 c0 Hf).
    unfold final, returned, warned. simpl.
    rewrite (search_hit get_dimensionality a v i0 c0 Hf). simpl.
    split; [done |]. by intros i _ _.
  - rewrite (search_miss get_dimensionality a v Hany).
    unfold final, returned, warned. simpl.
    set (m := (_generate_coordinate_map get_dimensionality v).1).
    set (v1 := foldl (assign_parsed m) v cf_axes).
    assert (Hsame : same_array v v1) by apply fold_assign_same_array.
    split.
    + destruct (any_marked (cf_str a) v1) eqn:Hany1.
      * pose proof Hany1 as Hfind.
        apply not_false_iff_true in Hfind. rewrite <- list_find_mark_None in Hfind.
        destruct (list_find _ (coords v1)) as [[j c']|] eqn:Hf; [| done].
        rewrite (search_hit get_dimensionality a v1 j c' Hf). simpl.
        apply list_find_Some in Hf as (Hj & Hm & _).
        apply fold_assign_effect in Hj as (c & Hc & [Hold|(b & _ & Hb & Hmb)]).
        -- exfalso. apply (proj1 (any_marked_false _ _) Hany j c Hc). congruence.
        -- rewrite Hmb in Hm. injection Hm as Hm. apply cf_str_inj in Hm.
           subst b. by rewrite Hb.
      * rewrite (search_miss get_dimensionality a v1 Hany1). simpl.
        by rewrite <- (proj1 (generate_related get_dimensionality v v1 Hsame) a).
    + intros i Hret Hothers. injection Hret as Hret.
      destruct (m a) as [[i' c0]|] eqn:Hma; [| done].
      simpl in Hret. injection Hret as ->.
      assert (Honly : only_at (cf_str a) i v1).
      { apply fold_assign_marks with c0; try done.
        - apply cf_axes_nodup.
        - apply cf_axes_all.
        - eapply lookup_lt_Some. by eapply generate_lookup. }
      destruct (only_at_find _ _ _ Honly) as [c Hf].
      rewrite (search_hit get_dimensionality a v1 i c Hf). simpl.
      split; [| done]. apply any_marked_true.
      destruct Honly as [(c1 & Hc1 & Hm1) _]. by exists i, c1.
Qed.

Lemma search_twice_witness :
  let o1 := _metpy_axis_search demo_dimensionality cfZ plain_array in
  let o2 := _metpy_axis_search demo_dimensionality cfZ (final o1) in
  returned o2 = returned o1
  /\ (any_marked (cf_str cfZ) (final o1) = true
      /\ final o2 = final o1 /\ warned o2 = []).
Proof.
  pose proof (search_twice demo_dimensionality plain_array cfZ) as [H1 H2].
  split; [exact H1 |]. apply (H2 1); [reflexivity |].
  intros b Hb. destruct b; try done; discriminate.
Defined.

(** ** Ambiguous axes *)

Section AmbiguityFacts.
Context {Dim : Type} `{EqDecision Dim}.
Variable get_dimensionality : option string -> option Dim.

Abbreviation generate := (_generate_coordinate_map get_dimensionality).
Abbreviation search := (_metpy_axis_search get_dimensionality).
Abbreviation ambiguous' := (ambiguous get_dimensionality).

Lemma resolved_ambiguous v a :
  ambiguous' v a ->
  resolved get_dimensionality v a = ([], [ambiguity_warning a v]).
Proof.
  intros (Hlen & Hproj & Hdim). unfold resolved.
  rewrite decide_True by done. unfold _resolve_axis_conflict.
  rewrite (bool_decide_eq_false_2 _ Hdim).
  destruct (is_horizontal a) eqn:Hh; simpl; [| done].
  rewrite bool_decide_eq_false_2; [done |]. intros Hone. by apply Hproj.
Qed.

Lemma ambiguous_same_array v v' a :
  same_array v v' -> ambiguous' v a -> ambiguous' v' a.
Proof.
  intros Hs (Hlen & Hproj & Hdim).
  pose proof (coord_lists_related get_dimensionality v v' a Hs) as Hl.
  pose proof (projection_coords_related get_dimensionality _ _ Hl) as Hp.
  pose proof (dimension_coords_related _ _ Hl) as Hd.
  unfold ambiguous.
  rewrite <- (Forall2_length _ _ _ Hl), <- (Forall2_length _ _ _ Hp),
    <- (Forall2_length _ _ _ Hd). done.
Qed.

Lemma generate_ambiguous v a :
  ambiguous' v a ->
  (generate v).1 a = None /\ ambiguity_warning a v ∈ (generate v).2.
Proof.
  intros Ham. destruct (generate_spec get_dimensionality v) as [H1 H2].
  rewrite H1, H2. split.
  - by rewrite (resolved_ambiguous v a Ham).
  - apply list_elem_of_In, in_flat_map. exists a. split.
    + apply list_elem_of_In, cf_axes_all.
    + rewrite (resolved_ambiguous v a Ham). simpl. auto.
Qed.

(** A lookup that runs the resolver writes no mark of an axis that the
    resolver left without a coordinate. *)
Lemma search_writes_no_absent_mark v a b j c' :
  (generate v).1 a = None ->
  coords (final (search b v)) !! j = Some c' ->
  mark c' = Some (cf_str a) ->
  exists c, coords v !! j = Some c /\ mark c = Some (cf_str a).
Proof.
  intros Hnone Hj Hm.
  destruct (any_marked (cf_str b) v) eqn:Hany.
  - apply not_false_iff_true in Hany. rewrite <- list_find_mark_None in Hany.
    destruct (list_find _ (coords v)) as [[i c0]|] eqn:Hf; [| done].
    rewrite (search_hit get_dimensionality b v i c0 Hf) in Hj. by exists c'.
  - rewrite (search_miss get_dimensionality b v Hany) in Hj.
    apply fold_assign_effect in Hj as (c & Hc & [Hold|(k & _ & Hk & Hmk)]).
    + exists c. split; [done | congruence].
    + rewrite Hmk in Hm. injection Hm as Hm. apply cf_str_inj in Hm. subst k.
      by rewrite Hnone in Hk.
Qed.

Lemma axis_ambiguous v a :
  ambiguous' v a -> any_marked (cf_str a) v = false ->
  let o := _axis get_dimensionality (cf_to_readable_axes a) v in
  returned o = Raise (not_available a)
  /\ ambiguity_warning a v ∈ warned o
  /\ any_marked (cf_str a) (final o) = false
  /\ same_array v (final o).
Proof.
  intros Ham Hun.
  destruct (generate_ambiguous v a Ham) as [Hnone Hwarn].
  pose proof (search_writes_no_absent_mark v a a) as Hno.
  pose proof (search_same_array get_dimensionality a v) as Hsame.
  unfold _axis. rewrite readable_of_cf. unfold bind.
  rewrite (search_miss get_dimensionality a v Hun) in *.
  rewrite Hnone. unfold final, warned, returned in *. simpl in *.
  split; [done |]. split; [by rewrite app_nil_r |]. split; [| done].
  apply any_marked_false. intros j c' Hj Hm.
  destruct (Hno j c' Hnone Hj Hm) as (c & Hc & Hmc).
  by apply (proj1 (any_marked_false _ _) Hun j c).
Qed.
End AmbiguityFacts.


Lemma ambiguous_two_latitudes : ambiguous demo_dimensionality two_latitudes cfY.
Proof.
  split; [vm_compute; lia |]. split.
  - intros [_ Hone]. vm_compute in Hone. discriminate.
  - vm_compute. discriminate.
Qed.


(** ** The tie-break of a conflict *)

Lemma ambiguity_warning_inj a b v :
  ambiguity_warning a v = ambiguity_warning b v -> a = b.
Proof.
  unfold ambiguity_warning. destruct a, b; try reflexivity;
    unfold cf_to_readable_axes; rewrite !append_cons; discriminate.
Qed.

Section ConflictFacts.
Context {Dim : Type} `{EqDecision Dim}.
Variable get_dimensionality : option string -> option Dim.

Abbreviation generate := (_generate_coordinate_map get_dimensionality).
Abbreviation resolved' := (resolved get_dimensionality).
Abbreviation count := (count_occ String.string_dec).

Lemma resolved_warnings v b :
  (resolved' v b).2 = [] \/ (resolved' v b).2 = [ambiguity_warning b v].
Proof.
  unfold resolved, _resolve_axis_conflict.
  destruct (decide _); [| by left].
  destruct (is_horizontal b && _); [by left |].
  destruct (bool_decide _); [by left | by right].
Qed.

Lemma count_other v a b :
  a <> b -> count (resolved' v b).2 (ambiguity_warning a v) = 0.
Proof.
  intros Hab. destruct (resolved_warnings v b) as [->| ->]; [done |].
  rewrite count_occ_cons_neq; [done |].
  intros Heq. by apply ambiguity_warning_inj in Heq.
Qed.

(** The warning of an axis occurs among the warnings of the resolver as
    often as the resolution of that axis issued it. *)
Lemma count_generate v a :
  count (generate v).2 (ambiguity_warning a v)
  = count (resolved' v a).2 (ambiguity_warning a v).
Proof.
  rewrite (proj2 (generate_spec get_dimensionality v)).
  unfold cf_axes. cbn [flat_map]. rewrite !count_occ_app. cbn [count_occ].
  destruct a;
    repeat match goal with
           | |- context [count_occ _ (resolved' v ?b).2 (ambiguity_warning ?a v)] =>
               rewrite (count_other v a b) by discriminate
           end; lia.
Qed.
End ConflictFacts.





(** ** The quantity indexer *)

Lemma bind_ret {A B} (a : A) (f : A -> M B) v : bind (ret a) f v = f a v.
Proof. unfold bind, ret. by destruct (f a v) as [[v' w] r]. Qed.

Lemma bind_lift_ok {A B} (a : A) (f : A -> M B) v : bind (lift (Ok a)) f v = f a v.
Proof. unfold bind, lift. by destruct (f a v) as [[v' w] r]. Qed.

Lemma bind_self {B} (f : DataArray -> M B) v : bind self_data_array f v = f v v.
Proof. unfold bind, self_data_array. by destruct (f v v) as [[v' w] r]. Qed.

Lemma bind_assoc {A B C} (m : M A) (f : A -> M B) (g : B -> M C) v :
  bind (bind m f) g v = bind m (fun x => bind (f x) g) v.
Proof.
  unfold bind. destruct (m v) as [[v1 w1] [a|e]]; [| done].
  destruct (f a v1) as [[v2 w2] [b|e]]; [| done].
  destruct (g b v2) as [[v3 w3] r]. by rewrite app_assoc.
Qed.

Lemma same_array_coord_names v v' : same_array v v' -> coord_names v = coord_names v'.
Proof.
  intros (_ & _ & Hc). unfold coord_names.
  induction Hc as [|c c' cs cs' (Hn & _) _ IH]; [done |].
  by rewrite !fmap_cons, Hn, IH.
Qed.

Section IndexerFacts.
Context {Dim : Type} `{EqDecision Dim}.
Variable get_dimensionality : option string -> option Dim.
Context {Unit Magnitude : Type}.
Variable parse_units : string -> option Unit.
Variable convert : Magnitude -> Unit -> Unit -> option Magnitude.

Abbreviation dict := (list (string * indexer (Unit := Unit) (Magnitude := Magnitude))).
Abbreviation units_of := (coord_units parse_units).
Abbreviation conv := (converted convert).
Abbreviation reassign := (_reassign_quantity_indexer get_dimensionality parse_units convert).

Implicit Types (d pre post : dict) (k : string) (v : DataArray).

(** *** The dictionary *)

Lemma dict_get_app k pre x post :
  k ∉ pre.*1 -> dict_get k (pre ++ (k, x) :: post) = Some x.
Proof.
  induction pre as [|[k' x'] pre IH]; intros Hk; simpl.
  - by rewrite String.eqb_refl.
  - rewrite fmap_cons in Hk. apply not_elem_of_cons in Hk as [Hne Hk].
    simpl in Hne. rewrite (proj2 (String.eqb_neq k' k)) by congruence. by apply IH.
Qed.

Lemma dict_set_app k pre x x' post :
  k ∉ pre.*1 -> dict_set k x' (pre ++ (k, x) :: post) = pre ++ (k, x') :: post.
Proof.
  induction pre as [|[k' y] pre IH]; intros Hk; simpl.
  - by rewrite String.eqb_refl.
  - rewrite fmap_cons in Hk. apply not_elem_of_cons in Hk as [Hne Hk].
    simpl in Hne. rewrite (proj2 (String.eqb_neq k' k)) by congruence. by rewrite IH.
Qed.

Lemma dict_get_set k x d : dict_get k (dict_set k x d) = Some x.
Proof.
  induction d as [|[k' y] d IH]; simpl.
  - by rewrite String.eqb_refl.
  - destruct (String.eqb k' k) eqn:Hk; simpl; by rewrite Hk.
Qed.

Lemma dict_set_set k x y d : dict_set k x (dict_set k y d) = dict_set k x d.
Proof.
  induction d as [|[k' z] d IH]; simpl.
  - by rewrite String.eqb_refl.
  - destruct (String.eqb k' k) eqn:Hk; simpl; rewrite Hk; [done | by rewrite IH].
Qed.

(** *** Values *)

Lemma to_magnitude_converted unit val val' :
  converted_value convert unit val val' -> _to_magnitude convert val unit = Ok val'.
Proof.
  destruct val as [|m|m u]; simpl; try (by intros ->).
  intros (m' & -> & ->). reflexivity.
Qed.

Lemma convertible_converted unit x :
  convertible convert unit x -> exists x', conv unit x x'.
Proof.
  assert (Hval : forall val, convertible_value convert unit val ->
                             exists val', converted_value convert unit val val').
  { intros [|m|m u]; simpl; [by eexists | by eexists |].
    intros [m' Hm]. exists (VPlain m'). by exists m'. }
  destruct x as [val|a b c]; simpl.
  - intros Hc. destruct (Hval val Hc) as [val' Hv]. by exists (IValue val').
  - intros (Ha & Hb & Hc).
    destruct (Hval a Ha) as [a' Ha'], (Hval b Hb) as [b' Hb'], (Hval c Hc) as [c' Hc'].
    by exists (ISlice a' b' c').
Qed.

(** *** One key *)

Lemma convert_key_spec k d v unit x x' :
  units_of v k = Ok unit -> dict_get k d = Some x -> conv unit x x' ->
  convert_key parse_units convert k d v = (v, [], Ok (dict_set k x' d)).
Proof.
  intros Hunit Hget Hconv. unfold convert_key.
  rewrite bind_self. unfold getitem at 1. rewrite Hget, bind_lift_ok.
  destruct x as [val|a b c], x' as [val'|a' b' c']; simpl in Hconv; try done.
  - rewrite bind_ret. unfold getitem. rewrite Hget, bind_lift_ok.
    rewrite Hunit, bind_lift_ok. unfold _to_magnitude_indexer.
    rewrite (to_magnitude_converted _ _ _ Hconv), bind_lift_ok. reflexivity.
  - destruct Hconv as (Ha & Hb & Hc).
    rewrite bind_assoc, Hunit, bind_lift_ok.
    rewrite bind_assoc, (to_magnitude_converted _ _ _ Ha), bind_lift_ok.
    rewrite bind_assoc, (to_magnitude_converted _ _ _ Hb), bind_lift_ok.
    rewrite bind_assoc, (to_magnitude_converted _ _ _ Hc), bind_lift_ok.
    rewrite bind_ret. unfold getitem. rewrite dict_get_set, bind_lift_ok.
    rewrite bind_lift_ok. unfold _to_magnitude_indexer. rewrite bind_lift_ok.
    unfold ret. by rewrite dict_set_set.
Qed.

Lemma rename_key_literal k d v :
  literal_key v k -> rename_key get_dimensionality k d v = (v, [], Ok (k, d)).
Proof.
  intros Hlit. unfold rename_key. rewrite bind_self.
  destruct Hlit as [Hdim|Hnone].
  - by rewrite (bool_decide_eq_true_2 _ Hdim).
  - rewrite Hnone, (bool_decide_eq_false_2 (is_Some None)) by (by intros [? ?]).
    by rewrite andb_false_r.
Qed.

Lemma reassign_key_literal k pre x post v unit x' :
  literal_key v k -> k ∉ pre.*1 ->
  units_of v k = Ok unit -> conv unit x x' ->
  reassign_key get_dimensionality parse_units convert k (pre ++ (k, x) :: post) v
  = (v, [], Ok (pre ++ (k, x') :: post)).
Proof.
  intros Hlit Hk Hunit Hconv. unfold reassign_key, bind.
  rewrite (rename_key_literal k _ v Hlit). simpl.
  rewrite (convert_key_spec k _ v unit x x' Hunit (dict_get_app k pre x post Hk) Hconv).
  by rewrite dict_set_app.
Qed.

(** *** The loop *)

Abbreviation translated_entry := (translated_entry parse_units convert).

Lemma reassign_keys_literal v post : forall pre,
  NoDup (pre.*1 ++ post.*1) ->
  (forall k x, (k, x) ∈ post ->
     literal_key v k
     /\ exists unit, units_of v k = Ok unit /\ convertible convert unit x) ->
  exists post',
    reassign_keys get_dimensionality parse_units convert
      (length (pre ++ post)) post.*1 (pre ++ post) v
    = (v, [], Ok (pre ++ post'))
    /\ Forall2 (translated_entry v) post post'.
Proof.
  induction post as [|[k x] post IH]; intros pre Hnd Hall.
  - exists []. split; [| constructor]. simpl.
    by rewrite Nat.eqb_refl.
  - destruct (Hall k x) as (Hlit & unit & Hunit & Hcv); [apply list_elem_of_here |].
    destruct (convertible_converted unit x Hcv) as [x' Hx'].
    assert (Hk : k ∉ pre.*1).
    { apply NoDup_app in Hnd as (_ & Hdisj & _). intros Hin.
      apply (Hdisj k Hin). simpl. apply list_elem_of_here. }
    destruct (IH (pre ++ [(k, x')])) as (post' & Hrun & Hrel).
    { rewrite fmap_app, <- app_assoc. exact Hnd. }
    { intros k0 x0 Hin. apply Hall. by apply list_elem_of_further. }
    exists ((k, x') :: post'). split.
    + cbn [reassign_keys fmap list_fmap]. rewrite Nat.eqb_refl. cbn [negb].
      unfold bind. cbn [fst].
      rewrite (reassign_key_literal k pre x post v unit x' Hlit Hk Hunit Hx').
      replace (length (pre ++ (k, x) :: post))
        with (length ((pre ++ [(k, x')]) ++ post))
        by (rewrite !length_app; simpl; lia).
      replace (pre ++ (k, x') :: post) with ((pre ++ [(k, x')]) ++ post)
        by (by rewrite <- app_assoc).
      rewrite Hrun. by rewrite <- app_assoc.
    + constructor; [| done]. split; [done |]. by exists unit.
Qed.
Lemma reassign_literal v d :
  NoDup d.*1 ->
  (forall k x, (k, x) ∈ d ->
     literal_key v k
     /\ exists unit, units_of v k = Ok unit /\ convertible convert unit x) ->
  exists d', reassign d v = (v, [], Ok d') /\ Forall2 (translated_entry v) d d'.
Proof.
  intros Hnd Hall. apply (reassign_keys_literal v d []); done.
Qed.

(** *** An axis type as key *)

Lemma data_getitem_lookup v i c :
  NoDup (coord_names v) -> coords v !! i = Some c ->
  data_getitem v (cname c) = Ok c.
Proof.
  intros Hnd Hi. unfold data_getitem.
  assert (Hf : list_find (fun c0 => cname c0 = cname c) (coords v) = Some (i, c)).
  { apply list_find_Some. split; [done |]. split; [done |].
    intros j y Hj Hlt Heq.
    assert (i = j); [| lia].
    apply (NoDup_lookup (coord_names v) i j (cname c) Hnd); unfold coord_names;
      rewrite list_lookup_fmap; [by rewrite Hi | by rewrite Hj, <- Heq]. }
  by rewrite Hf.
Qed.

Lemma rename_key_axis k a d v v1 w i c x :
  k ∉ dims v -> readable_to_cf_axes k = Some a ->
  _axis get_dimensionality k v = (v1, w, Ok i) ->
  coords v1 !! i = Some c -> dict_get k d = Some x ->
  rename_key get_dimensionality k d v
  = (v1, w, Ok (cname c, dict_del k (dict_set (cname c) x d))).
Proof.
  intros Hdim Hread Haxis Hi Hget. unfold rename_key. rewrite bind_self.
  rewrite (bool_decide_eq_false_2 _ Hdim), Hread.
  rewrite (bool_decide_eq_true_2 (is_Some (Some a))) by (by eexists).
  cbn [negb andb]. unfold bind at 1. rewrite Haxis.
  rewrite bind_self, Hi. unfold getitem. rewrite Hget, bind_lift_ok.
  unfold ret. by rewrite app_nil_r.
Qed.

Lemma reassign_axis_key v k a x i c unit :
  NoDup (coord_names v) ->
  k ∉ dims v -> readable_to_cf_axes k = Some a ->
  returned (_axis get_dimensionality k v) = Ok i ->
  coords (final (_axis get_dimensionality k v)) !! i = Some c ->
  cname c <> k ->
  metpy_units parse_units c = Ok unit ->
  convertible convert unit x ->
  exists x',
    reassign [(k, x)] v
    = (final (_axis get_dimensionality k v),
       warned (_axis get_dimensionality k v), Ok [(cname c, x')])
    /\ conv unit x x'.
Proof.
  intros Hnd Hdim Hread Hret Hi Hne Hunit Hcv.
  destruct (convertible_converted unit x Hcv) as [x' Hx']. exists x'.
  split; [| done].
  assert (Hsame : same_array v (final (_axis get_dimensionality k v))).
  { unfold _axis. rewrite Hread. unfold bind.
    pose proof (search_same_array get_dimensionality a v) as Hs.
    destruct (_metpy_axis_search get_dimensionality a v) as [[v1 w1] [[j|]|e]];
      exact Hs. }
  destruct (_axis get_dimensionality k v) as [[v1 w] r] eqn:Haxis.
  unfold final, warned, returned in *. simpl in Hret, Hi, Hsame |- *. subst r.
  assert (Hunits : units_of v1 (cname c) = Ok unit).
  { unfold coord_units. rewrite (data_getitem_lookup v1 i c); [done | | done].
    by rewrite <- (same_array_coord_names v v1 Hsame). }
  unfold _reassign_quantity_indexer. cbn [length fmap list_fmap fst reassign_keys].
  cbn [Nat.eqb negb]. unfold bind at 1. unfold reassign_key, bind at 1.
  rewrite (rename_key_axis k a [(k, x)] v v1 w i c x Hdim Hread Haxis Hi);
    [| by cbn [dict_get]; rewrite String.eqb_refl].
  cbn [fst snd dict_set dict_del].
  rewrite (proj2 (String.eqb_neq k (cname c))) by congruence.
  cbn [dict_del]. rewrite String.eqb_refl.
  rewrite (convert_key_spec (cname c) [(cname c, x)] v1 unit x x' Hunits);
    [| by cbn [dict_get]; rewrite String.eqb_refl | done].
  cbn [dict_set]. rewrite String.eqb_refl.
  cbn [length Nat.eqb negb ret]. by rewrite !app_nil_r.
Qed.
End IndexerFacts.



(** * Further properties of the module *)

(** ** [re.match] on the patterns of the table *)

Lemma append_nil_r (s : string) : s +:+ "" = s.
Proof. induction s as [|c s IH]; [done |]. by rewrite append_cons, IH. Qed.

Lemma append_assoc (s1 s2 s3 : string) : (s1 +:+ s2) +:+ s3 = s1 +:+ s2 +:+ s3.
Proof. induction s1 as [|c s1 IH]; [done |]. by rewrite !append_cons, IH. Qed.

Lemma full_match_none s : full_match RNone s = false.
Proof. induction s as [|c s IH]; [done | exact IH]. Qed.

Lemma full_match_eps s : full_match REps s = true <-> s = "".
Proof.
  destruct s as [|c s]; [done |]. simpl. rewrite full_match_none. done.
Qed.

Lemma full_match_chr c s : full_match (RChr c) s = true <-> s = String c "".
Proof.
  destruct s as [|c' s]; [done |]. simpl.
  destruct (Ascii.eqb_spec c' c) as [->|Hne].
  - rewrite full_match_eps. split; [by intros -> | by intros [= ->]].
  - rewrite full_match_none. split; [done | intros [= ? ?]; congruence].
Qed.

Lemma full_match_alt r1 r2 s :
  full_match (RAlt r1 r2) s = full_match r1 s || full_match r2 s.
Proof. revert r1 r2. induction s as [|c s IH]; intros r1 r2; [done | apply IH]. Qed.

Lemma full_match_cat r1 r2 s :
  full_match (RCat r1 r2) s = true
  <-> exists s1 s2, s = s1 +:+ s2 /\ full_match r1 s1 = true /\ full_match r2 s2 = true.
Proof.
  revert r1. induction s as [|c s IH]; intros r1.
  - simpl. rewrite andb_true_iff. split.
    + intros [H1 H2]. by exists "", "".
    + intros ([|? ?] & [|? ?] & Hs & H1 & H2); try discriminate. done.
  - change (full_match (RCat r1 r2) (String c s))
      with (full_match (deriv c (RCat r1 r2)) s).
    assert (Hstep : full_match (RCat (deriv c r1) r2) s = true
      <-> exists s1 s2, String c s = String c s1 +:+ s2
            /\ full_match r1 (String c s1) = true /\ full_match r2 s2 = true).
    { rewrite IH. split; intros (s1 & s2 & Hs & H1 & H2); exists s1, s2.
      - by rewrite append_cons, Hs.
      - rewrite append_cons in Hs. by injection Hs as ->. }
    simpl. destruct (nullable r1) eqn:Hn.
    + rewrite full_match_alt, orb_true_iff, Hstep. split.
      * intros [(s1 & s2 & Hs & H1 & H2)|H2].
        -- by exists (String c s1), s2.
        -- by exists "", (String c s).
      * intros ([|c' s1] & s2 & Hs & H1 & H2).
        -- right. rewrite append_nil in Hs. by subst s2.
        -- left. rewrite append_cons in Hs. injection Hs as -> ->. by exists s1, s2.
    + rewrite Hstep. split.
      * intros (s1 & s2 & Hs & H1 & H2). by exists (String c s1), s2.
      * intros ([|c' s1] & s2 & Hs & H1 & H2).
        -- simpl in H1. congruence.
        -- rewrite append_cons in Hs. injection Hs as -> ->. by exists s1, s2.
Qed.

Lemma full_match_lit p s : full_match (RLit p) s = true <-> s = p.
Proof.
  revert s. induction p as [|c p IH]; intros s.
  - apply full_match_eps.
  - change (RLit (String c p)) with (RCat (RChr c) (RLit p)).
    rewrite full_match_cat. split.
    + intros (s1 & s2 & -> & H1 & H2). apply full_match_chr in H1 as ->.
      apply IH in H2 as ->. done.
    + intros ->. exists (String c ""), p.
      split; [done |]. split; [by apply full_match_chr | by apply IH].
Qed.

Lemma full_match_opt r s :
  full_match (ROpt r) s = true <-> s = "" \/ full_match r s = true.
Proof.
  destruct s as [|c s]; simpl; [by split; [left | ] |].
  split; [by right | by intros [?|?]].
Qed.

(** [re.match] succeeds when a prefix of the string is a whole match. *)
Lemma re_match_prefix r s :
  re_match r s = true <-> exists s1 s2, s = s1 +:+ s2 /\ full_match r s1 = true.
Proof.
  revert r. induction s as [|c s IH]; intros r.
  - simpl. rewrite orb_false_r. split.
    + intros Hn. by exists "", "".
    + intros ([|? ?] & s2 & Hs & H1); [done | discriminate].
  - change (re_match r (String c s)) with (nullable r || re_match (deriv c r) s).
    rewrite orb_true_iff, IH. split.
    + intros [Hn|(s1 & s2 & -> & H1)].
      * by exists "", (String c s).
      * by exists (String c s1), s2.
    + intros ([|c' s1] & s2 & Hs & H1).
      * by left.
      * right. rewrite append_cons in Hs. injection Hs as -> ->. by exists s1, s2.
Qed.

(** A pattern that ends in a part matching the empty string succeeds as
    soon as what comes before that part matches a prefix. *)
Lemma re_match_cat_nullable r1 r2 s :
  nullable r2 = true ->
  re_match (RCat r1 r2) s = true
  <-> exists s1 s2, s = s1 +:+ s2 /\ full_match r1 s1 = true.
Proof.
  intros Hn. rewrite re_match_prefix. split.
  - intros (s1 & s2 & -> & Hf). apply full_match_cat in Hf as (u & w & -> & Hu & Hw).
    exists u, (w +:+ s2). by rewrite append_assoc.
  - intros (s1 & s2 & -> & Hf). exists s1, s2. split; [done |].
    apply full_match_cat. exists s1, "". by rewrite append_nil_r.
Qed.

Lemma re_match_lit p s :
  re_match (RLit p) s = true <-> exists rest, s = p +:+ rest.
Proof.
  rewrite re_match_prefix. split.
  - intros (s1 & s2 & -> & Hf). apply full_match_lit in Hf as ->. by exists s2.
  - intros (rest & ->). exists p, rest. split; [done | by apply full_match_lit].
Qed.

Lemma re_match_lit_nullable p r s :
  nullable r = true ->
  re_match (RCat (RLit p) r) s = true <-> exists rest, s = p +:+ rest.
Proof.
  intros Hn. rewrite (re_match_cat_nullable _ _ _ Hn). split.
  - intros (s1 & s2 & -> & Hf). apply full_match_lit in Hf as ->. by exists s2.
  - intros (rest & ->). exists p, rest. split; [done | by apply full_match_lit].
Qed.

(** The patterns of [lat] and [lon]: an optional [x], then the word. *)
Lemma re_match_optional_x p r s :
  nullable r = true ->
  re_match (RCat (ROpt (RChr "x")) (RCat (RLit p) r)) s = true
  <-> exists rest, s = p +:+ rest \/ s = "x" +:+ p +:+ rest.
Proof.
  intros Hn. rewrite re_match_prefix. split.
  - intros (s1 & s2 & -> & Hf).
    apply full_match_cat in Hf as (u & w & -> & Hu & Hw).
    apply full_match_cat in Hw as (w1 & w2 & -> & Hw1 & _).
    apply full_match_lit in Hw1 as ->.
    exists (w2 +:+ s2). apply full_match_opt in Hu as [->|Hu].
    + left. by rewrite append_nil, append_assoc.
    + right. apply full_match_chr in Hu as ->. by rewrite !append_assoc.
  - assert (Hp : full_match (RCat (RLit p) r) p = true).
    { apply full_match_cat. exists p, "". rewrite append_nil_r.
      split; [done |]. split; [by apply full_match_lit | done]. }
    intros (rest & [-> | ->]).
    + exists p, rest. split; [done |]. apply full_match_cat.
      exists "", p. split; [done |]. by split.
    + exists ("x" +:+ p), rest. split; [by rewrite append_assoc |].
      apply full_match_cat. exists "x", p. split; [done |]. by split.
Qed.

Lemma full_match_hght s :
  full_match (RCat (RChr "h") (RCat (ROpt (RLit "ei")) (RLit "ght"))) s = true
  <-> s = "hght" \/ s = "height".
Proof.
  rewrite full_match_cat. split.
  - intros (s1 & s2 & -> & H1 & H2). apply full_match_chr in H1 as ->.
    apply full_match_cat in H2 as (u & w & -> & Hu & Hw).
    apply full_match_lit in Hw as ->.
    apply full_match_opt in Hu as [->|Hu]; [by left |].
    apply full_match_lit in Hu as ->. by right.
  - intros [-> | ->].
    + exists "h", "ght". split; [done |]. split; [done |].
      apply full_match_cat. by exists "", "ght".
    + exists "h", "eight". split; [done |]. split; [done |].
      apply full_match_cat. by exists "ei", "ght".
Qed.

Lemma re_match_vertical s :
  re_match (regular_expression ax_vertical) s = true
  <-> exists p rest, p ∈ vertical_prefixes /\ s = p +:+ rest.
Proof.
  unfold regular_expression. rewrite re_match_cat_nullable by reflexivity.
  assert (Hone : forall s1,
    full_match
      (RAlt (RLit "bottom_top")
      (RAlt (RLit "sigma")
      (RAlt (RCat (RChr "h") (RCat (ROpt (RLit "ei")) (RLit "ght")))
      (RAlt (RLit "altitude")
      (RAlt (RLit "depth")
      (RAlt (RLit "isobaric")
      (RAlt (RLit "pres") (RLit "isotherm"))))))))
      s1 = true
    <-> s1 ∈ vertical_prefixes).
  { intros s1. rewrite !full_match_alt, !orb_true_iff, !full_match_lit, full_match_hght.
    unfold vertical_prefixes. rewrite !elem_of_cons, elem_of_nil. tauto. }
  split.
  - intros (s1 & s2 & -> & Hf). exists s1, s2. split; [by apply Hone | done].
  - intros (p & rest & Hp & ->). exists p, rest. split; [done | by apply Hone].
Qed.

(** X1: the regular expression of an axis is tried with [re.match] on the
    lowered name, so it is a test on how the name begins, whatever follows:
    [time] for the time axis, [y] and [x] for the projection axes, [lat] or
    [xlat] and [lon] or [xlon] for latitude and longitude, and one of nine
    words for the vertical axis. *)
Theorem check_regex_is_prefix_test (var : Coord) :
  (check_regex var ax_time = true
     <-> exists rest, lower (cname var) = "time" +:+ rest)
  /\ (check_regex var ax_y = true
     <-> exists rest, lower (cname var) = "y" +:+ rest)
  /\ (check_regex var ax_x = true
     <-> exists rest, lower (cname var) = "x" +:+ rest)
  /\ (check_regex var ax_lat = true
     <-> exists rest, lower (cname var) = "lat" +:+ rest
                      \/ lower (cname var) = "x" +:+ "lat" +:+ rest)
  /\ (check_regex var ax_lon = true
     <-> exists rest, lower (cname var) = "lon" +:+ rest
                      \/ lower (cname var) = "x" +:+ "lon" +:+ rest)
  /\ (check_regex var ax_vertical = true
     <-> exists p rest, p ∈ vertical_prefixes /\ lower (cname var) = p +:+ rest).
Proof.
  unfold check_regex. repeat split.
  all: try (apply re_match_lit_nullable; reflexivity).
  all: try (apply re_match_lit).
  all: try (apply re_match_optional_x; reflexivity).
  all: try (apply re_match_vertical).
  all: try (intros H; apply re_match_lit_nullable in H; [exact H | reflexivity]).
Qed.

Lemma check_regex_is_prefix_test_witness :
  check_regex xlat_m ax_lat = true /\ check_regex xlat_m ax_x = true.
Proof.
  destruct (check_regex_is_prefix_test xlat_m) as (_ & _ & Hx & Hlat & _).
  split.
  - apply Hlat. exists "_m". by right.
  - apply Hx. by exists "lat_m".
Defined.

(** ** [check_axis] *)

(** X2: [check_axis] with several axes is true exactly when it is true for
    one of them alone; with no axis it is false. *)
Theorem check_axis_any {Dim : Type} `{EqDecision Dim}
    (get_dimensionality : option string -> option Dim)
    (var : Coord) (axes : list axis_name) :
  check_axis get_dimensionality var axes = true
  <-> exists a, a ∈ axes /\ check_axis get_dimensionality var [a] = true.
Proof.
  induction axes as [|b rest IH].
  - split; [done | intros (a & Ha & _); by apply elem_of_nil in Ha].
  - rewrite check_axis_cons, orb_true_iff, IH. split.
    + intros [Hb|(a & Ha & Hc)].
      * exists b. split; [apply list_elem_of_here |].
        by rewrite check_axis_cons, Hb.
      * exists a. split; [by apply list_elem_of_further | done].
    + intros (a & Ha & Hc). apply elem_of_cons in Ha as [->|Ha].
      * left. rewrite check_axis_cons in Hc. simpl in Hc.
        by rewrite orb_false_r in Hc.
      * right. by exists a.
Qed.

(** X3: a coordinate whose unit has, for the registry, the dimensionality
    of [Pa] satisfies [check_axis] for the vertical axis, whatever its name
    and its other attributes. *)
Theorem check_axis_pressure_units {Dim : Type} `{EqDecision Dim}
    (get_dimensionality : option string -> option Dim)
    (var : Coord) (d : Dim) (axes : list axis_name) :
  get_dimensionality (cattrs var !! "units") = Some d ->
  get_dimensionality (Some "Pa") = Some d ->
  ax_vertical ∈ axes ->
  check_axis get_dimensionality var axes = true.
Proof.
  intros Hu Hpa Hin. apply check_axis_elem with ax_vertical; [done |].
  assert (Hunits : check_units get_dimensionality var ax_vertical = true).
  { unfold check_units. simpl. rewrite Hu, Hpa. by apply bool_decide_eq_true. }
  rewrite Hunits. by rewrite orb_true_r.
Qed.

Lemma check_axis_pressure_units_witness :
  check_axis demo_dimensionality foo_in_mbar (axes_to_check cfZ) = true.
Proof.
  apply (check_axis_pressure_units demo_dimensionality foo_in_mbar "pressure"
           (axes_to_check cfZ)); try reflexivity.
  apply list_elem_of_here.
Defined.

(** X4: a coordinate whose unit is spelled as one of the names that the
    table lists for latitude or longitude satisfies [check_axis] for that
    axis; the spelling is compared as a string and the registry is not
    asked, so this holds for every registry. *)
Theorem check_axis_unit_spelling {Dim : Type} `{EqDecision Dim}
    (get_dimensionality : option string -> option Dim)
    (var : Coord) (a : axis_name) (names : list string) (u : string)
    (axes : list axis_name) :
  units_criteria a = Some (MatchName names) ->
  cattrs var !! "units" = Some u -> u ∈ names ->
  a ∈ axes ->
  check_axis get_dimensionality var axes = true.
Proof.
  intros Hrule Hu Hin Ha. apply check_axis_elem with a; [done |].
  assert (Hunits : check_units get_dimensionality var a = true).
  { unfold check_units. rewrite Hrule, Hu. by apply existsb_eqb_elem. }
  rewrite Hunits. by rewrite orb_true_r.
Qed.

Lemma check_axis_unit_spelling_witness :
  check_axis (fun _ : option string => @None string) foo_degrees
    (axes_to_check cfY) = true.
Proof.
  apply (check_axis_unit_spelling (fun _ => None) foo_degrees ax_lat
           ["degree_north"; "degree_N"; "degreeN";
            "degrees_north"; "degrees_N"; "degreesN"] "degreesN"
           (axes_to_check cfY)); try reflexivity.
  - apply list_elem_of_In. simpl. tauto.
  - apply list_elem_of_In. simpl. tauto.
Defined.

(** X5: a coordinate that has none of the four attributes [standard_name],
    [_CoordinateAxisType], [axis] and [positive] satisfies no attribute
    criterion (the default value [absent] is in no entry of the table), so
    [check_axis] is decided by its units and its name alone. *)
Theorem check_axis_without_attributes {Dim : Type} `{EqDecision Dim}
    (get_dimensionality : option string -> option Dim)
    (var : Coord) (axes : list axis_name) :
  (forall criterion, criterion ∈ attr_criteria -> cattrs var !! criterion = None) ->
  (forall a, check_attrs var a = false)
  /\ check_axis get_dimensionality var axes
     = existsb (fun a => check_units get_dimensionality var a || check_regex var a) axes.
Proof.
  intros Hnone.
  assert (Hattrs : forall a, check_attrs var a = false).
  { intros a. unfold check_attrs, attr_criteria. cbn [existsb].
    rewrite !Hnone by (apply list_elem_of_In; simpl; tauto).
    by destruct a. }
  split; [done |]. induction axes as [|a rest IH]; [done |].
  by rewrite check_axis_cons, Hattrs, IH.
Qed.

Lemma check_axis_without_attributes_witness :
  (forall a, check_attrs xlat_m a = false)
  /\ check_axis demo_dimensionality xlat_m [ax_time; ax_vertical]
     = existsb (fun a => check_units demo_dimensionality xlat_m a
                         || check_regex xlat_m a) [ax_time; ax_vertical].
Proof.
  apply (check_axis_without_attributes demo_dimensionality xlat_m
           [ax_time; ax_vertical]).
  intros criterion Hc.
  repeat (apply elem_of_cons in Hc as [->|Hc]; [reflexivity |]).
  by apply elem_of_nil in Hc.
Defined.

(** X6: the empty string occurs in every string, so a coordinate whose
    [standard_name] is empty satisfies [check_axis] for every axis whose
    entry in the table is a string, that is for every axis but the vertical
    one. *)
Theorem check_axis_empty_standard_name {Dim : Type} `{EqDecision Dim}
    (get_dimensionality : option string -> option Dim)
    (var : Coord) (a : axis_name) (axes : list axis_name) :
  cattrs var !! "standard_name" = Some "" ->
  a <> ax_vertical -> a ∈ axes ->
  check_axis get_dimensionality var axes = true.
Proof.
  intros Hattr Hne Hin. apply check_axis_elem with a; [done |].
  rewrite (check_attrs_hit var a "standard_name" ""); [done | | done |].
  - apply list_elem_of_In. simpl. tauto.
  - by destruct a.
Qed.

Lemma check_axis_empty_standard_name_witness :
  check_axis demo_dimensionality foo_empty_name (axes_to_check cfT) = true.
Proof.
  apply (check_axis_empty_standard_name demo_dimensionality foo_empty_name
           ax_time (axes_to_check cfT)); [reflexivity | discriminate |].
  apply list_elem_of_here.
Defined.

(** ** The resolver *)

Lemma matching_elem p cs : forall i j c,
  (j, c) ∈ matching p i cs <-> i <= j /\ cs !! (j - i) = Some c /\ p c = true.
Proof.
  intros i j c. split; [apply matching_lookup |].
  revert i j. induction cs as [|c0 cs IH]; intros i j (Hle & Hl & Hp); [done |].
  simpl. apply elem_of_app. destruct (decide (j = i)) as [->|Hne].
  - left. rewrite Nat.sub_diag in Hl. injection Hl as ->. rewrite Hp.
    apply list_elem_of_here.
  - right. apply IH. split; [lia |]. split; [| done].
    replace (j - i) with (S (j - S i)) in Hl by lia. done.
Qed.

Lemma matching_ordered p cs : forall i k1 k2 e1 e2,
  matching p i cs !! k1 = Some e1 -> matching p i cs !! k2 = Some e2 ->
  k1 < k2 -> e1.1 < e2.1.
Proof.
  induction cs as [|c0 cs IH]; intros i k1 k2 e1 e2 H1 H2 Hlt; [done |].
  simpl in H1, H2. destruct (p c0).
  - destruct k1 as [|k1], k2 as [|k2]; try lia; simpl in H1, H2.
    + injection H1 as <-. apply list_elem_of_lookup_2 in H2.
      destruct e2 as [j c]. apply matching_lookup in H2. simpl. lia.
    + apply (IH (S i) k1 k2); [done | done | lia].
  - by apply (IH (S i) k1 k2).
Qed.

(** X7: after the scan, [coord_lists[a]] holds exactly the coordinates of
    the array that satisfy [check_axis] for the readable axes of [a], each
    once and in the order of the coordinates. *)
Theorem coord_lists_sound_complete {Dim : Type} `{EqDecision Dim}
    (get_dimensionality : option string -> option Dim)
    (v : DataArray) (a : cf_axis) :
  (forall j c,
     (j, c) ∈ coord_lists get_dimensionality v a
     <-> coords v !! j = Some c
         /\ check_axis get_dimensionality c (axes_to_check a) = true)
  /\ (forall k1 k2 e1 e2,
        coord_lists get_dimensionality v a !! k1 = Some e1 ->
        coord_lists get_dimensionality v a !! k2 = Some e2 ->
        k1 < k2 -> e1.1 < e2.1).
Proof.
  rewrite coord_lists_spec. split.
  - intros j c. rewrite matching_elem, Nat.sub_0_r. split.
    + by intros (_ & ? & ?).
    + intros [? ?]. split; [lia | done].
  - apply matching_ordered.
Qed.

Lemma coord_lists_sound_complete_witness :
  (2, coord "lat" ["y"; "x"] [("standard_name", "latitude")])
    ∈ coord_lists demo_dimensionality projected_grid cfY.
Proof.
  apply (proj1 (coord_lists_sound_complete demo_dimensionality projected_grid cfY)).
  split; reflexivity.
Defined.

(** X8: an axis for which the scan finds at most one candidate is not a
    conflict: the map holds that candidate, or nothing when there is none,
    and the warning of the axis is not issued. *)
Theorem no_conflict_no_warning {Dim : Type} `{EqDecision Dim}
    (get_dimensionality : option string -> option Dim)
    (v : DataArray) (a : cf_axis) :
  length (coord_lists get_dimensionality v a) <= 1 ->
  (_generate_coordinate_map get_dimensionality v).1 a
    = head (coord_lists get_dimensionality v a)
  /\ count_occ String.string_dec
       (_generate_coordinate_map get_dimensionality v).2
       (ambiguity_warning a v) = 0.
Proof.
  intros Hlen.
  rewrite (proj1 (generate_spec get_dimensionality v) a), count_generate.
  unfold resolved. rewrite decide_False by lia. done.
Qed.

Lemma no_conflict_no_warning_witness :
  (_generate_coordinate_map demo_dimensionality plain_array).1 cfZ
    = head (coord_lists demo_dimensionality plain_array cfZ)
  /\ count_occ String.string_dec
       (_generate_coordinate_map demo_dimensionality plain_array).2
       (ambiguity_warning cfZ plain_array) = 0.
Proof.
  apply (no_conflict_no_warning demo_dimensionality plain_array cfZ).
  vm_compute. lia.
Defined.

(** X9: for the time and vertical axes the projection test is not tried:
    among two or more candidates the only dimension coordinate is taken,
    without a warning, and when there is not exactly one the axis gets no
    coordinate and its warning is issued once. *)
Theorem time_vertical_conflict_resolution {Dim : Type} `{EqDecision Dim}
    (get_dimensionality : option string -> option Dim)
    (v : DataArray) (a : cf_axis) :
  is_horizontal a = false ->
  1 < length (coord_lists get_dimensionality v a) ->
  (forall c, dimension_coords (coord_lists get_dimensionality v a) = [c] ->
     (_generate_coordinate_map get_dimensionality v).1 a = Some c
     /\ count_occ String.string_dec
          (_generate_coordinate_map get_dimensionality v).2
          (ambiguity_warning a v) = 0)
  /\ (length (dimension_coords (coord_lists get_dimensionality v a)) <> 1 ->
      (_generate_coordinate_map get_dimensionality v).1 a = None
      /\ count_occ String.string_dec
           (_generate_coordinate_map get_dimensionality v).2
           (ambiguity_warning a v) = 1).
Proof.
  intros Hh Hlen.
  rewrite (proj1 (generate_spec get_dimensionality v) a), count_generate.
  unfold resolved. rewrite decide_True by done.
  unfold _resolve_axis_conflict. rewrite Hh. cbn [andb]. split.
  - intros c Hd. by rewrite Hd.
  - intros Hnd. rewrite (bool_decide_eq_false_2 _ Hnd).
    cbn [fst snd head]. by rewrite count_occ_cons_eq.
Qed.

Lemma time_vertical_conflict_resolution_witness :
  (_generate_coordinate_map demo_dimensionality two_times).1 cfT
    = Some (0, coord "time" ["time"] [])
  /\ count_occ String.string_dec
       (_generate_coordinate_map demo_dimensionality two_times).2
       (ambiguity_warning cfT two_times) = 0.
Proof.
  destruct (time_vertical_conflict_resolution demo_dimensionality two_times cfT)
    as [Hdim _]; [reflexivity | vm_compute; lia |].
  apply Hdim. reflexivity.
Defined.

Section ResolverMore.
Context {Dim : Type} `{EqDecision Dim}.
Variable get_dimensionality : option string -> option Dim.

Lemma resolved_not_ambiguous v a :
  ~ ambiguous get_dimensionality v a ->
  (resolved get_dimensionality v a).2 = [].
Proof.
  intros Hna. unfold resolved.
  destruct (decide (1 < length _)) as [Hlen|]; [| done].
  unfold _resolve_axis_conflict.
  destruct (is_horizontal a && _) eqn:Hproj; [done |].
  destruct (bool_decide (length (dimension_coords _) = 1)) eqn:Hdim; [done |].
  exfalso. apply Hna. split; [done |]. split.
  - intros [Hh Hone]. rewrite Hh, (bool_decide_eq_true_2 _ Hone) in Hproj. done.
  - by apply bool_decide_eq_false in Hdim.
Qed.

Lemma resolved_candidates v a c :
  c ∈ (resolved get_dimensionality v a).1 -> c ∈ coord_lists get_dimensionality v a.
Proof.
  unfold resolved. destruct (decide _); [| done]. apply resolve_subset.
Qed.
Lemma ambiguous_decidable v a :
  ambiguous get_dimensionality v a \/ ~ ambiguous get_dimensionality v a.
Proof.
  unfold ambiguous.
  destruct (decide (1 < length (coord_lists get_dimensionality v a)));
    destruct (decide (is_horizontal a = true
      /\ length (projection_coords get_dimensionality
                  (coord_lists get_dimensionality v a)) = 1));
    destruct (decide (length (dimension_coords
                  (coord_lists get_dimensionality v a)) = 1)); tauto.
Qed.
End ResolverMore.

(** X10: what [_generate_coordinate_map] returns is sound: the coordinate
    that the map holds for an axis is a coordinate of the array, at the
    position given, and satisfies [check_axis] for the readable axes of that
    axis; and a warning is issued exactly for the ambiguous axes. *)
Theorem generate_coordinate_map_sound {Dim : Type} `{EqDecision Dim}
    (get_dimensionality : option string -> option Dim) (v : DataArray) :
  (forall a j c,
     (_generate_coordinate_map get_dimensionality v).1 a = Some (j, c) ->
     coords v !! j = Some c
     /\ check_axis get_dimensionality c (axes_to_check a) = true)
  /\ (forall w,
        w ∈ (_generate_coordinate_map get_dimensionality v).2
        <-> exists a, ambiguous get_dimensionality v a /\ w = ambiguity_warning a v).
Proof.
  split.
  - intros a j c Hmap.
    apply (proj1 (coord_lists_sound_complete get_dimensionality v a)).
    apply resolved_candidates.
    rewrite (proj1 (generate_spec get_dimensionality v) a) in Hmap.
    destruct (resolved get_dimensionality v a).1; [done |].
    injection Hmap as ->. apply list_elem_of_here.
  - intros w. rewrite (proj2 (generate_spec get_dimensionality v)).
    rewrite list_elem_of_In, in_flat_map. split.
    + intros (a & _ & Hw). exists a.
      destruct (resolved_warnings get_dimensionality v a) as [Hnil|Hone].
      * rewrite Hnil in Hw. destruct Hw.
      * rewrite Hone in Hw. destruct Hw as [<-|[]]. split; [| done].
        destruct (ambiguous_decidable get_dimensionality v a) as [|Hna]; [done |].
        rewrite (resolved_not_ambiguous _ v a Hna) in Hone. discriminate.
    + intros (a & Ham & ->). exists a. split.
      * apply list_elem_of_In, cf_axes_all.
      * rewrite (resolved_ambiguous _ v a Ham). simpl. auto.
Qed.

Lemma generate_coordinate_map_sound_witness :
  coords projected_grid !! 1
    = Some (coord "x" ["x"] [("standard_name", "projection_x_coordinate")])
  /\ check_axis demo_dimensionality
       (coord "x" ["x"] [("standard_name", "projection_x_coordinate")])
       (axes_to_check cfX) = true.
Proof.
  apply (proj1 (generate_coordinate_map_sound demo_dimensionality projected_grid)
           cfX 1).
  reflexivity.
Defined.

(** X11: the resolver does not read the cache: on two states of an array
    that differ at most in the [_metpy_axis] attributes of the coordinates,
    [_generate_coordinate_map] holds the same positions for the four axes
    and issues the same warnings. *)
Theorem generate_coordinate_map_ignores_marks {Dim : Type} `{EqDecision Dim}
    (get_dimensionality : option string -> option Dim) (v v' : DataArray) :
  same_array v v' ->
  (forall a,
     fst <$> (_generate_coordinate_map get_dimensionality v).1 a
     = fst <$> (_generate_coordinate_map get_dimensionality v').1 a)
  /\ (_generate_coordinate_map get_dimensionality v).2
     = (_generate_coordinate_map get_dimensionality v').2.
Proof. apply generate_related. Qed.

Lemma same_array_plain_stale : same_array plain_array stale_array.
Proof.
  change stale_array with (set_mark 1 "T" plain_array).
  apply same_array_set_mark.
Qed.

Lemma generate_coordinate_map_ignores_marks_witness :
  (forall a,
     fst <$> (_generate_coordinate_map demo_dimensionality plain_array).1 a
     = fst <$> (_generate_coordinate_map demo_dimensionality stale_array).1 a)
  /\ (_generate_coordinate_map demo_dimensionality plain_array).2
     = (_generate_coordinate_map demo_dimensionality stale_array).2.
Proof.
  apply (generate_coordinate_map_ignores_marks demo_dimensionality
           plain_array stale_array).
  exact same_array_plain_stale.
Defined.

(** ** The cache, again *)

Section CacheMore.
Context {Dim : Type} `{EqDecision Dim}.
Variable get_dimensionality : option string -> option Dim.

Lemma marks_only_ret {A} (a : A) : marks_only (ret a).
Proof. intros v. apply same_array_refl. Qed.

Lemma marks_only_raise {A} e : marks_only (raise (A := A) e).
Proof. intros v. apply same_array_refl. Qed.

Lemma marks_only_lift {A} (r : result A) : marks_only (lift r).
Proof. intros v. apply same_array_refl. Qed.

Lemma marks_only_self : marks_only self_data_array.
Proof. intros v. apply same_array_refl. Qed.

Lemma marks_only_bind {A B} (m : M A) (f : A -> M B) :
  marks_only m -> (forall a, marks_only (f a)) -> marks_only (bind m f).
Proof.
  intros Hm Hf v. unfold bind. specialize (Hm v).
  destruct (m v) as [[v1 w1] [a|e]]; [| exact Hm].
  specialize (Hf a v1). destruct (f a v1) as [[v2 w2] r].
  unfold final in *. simpl in *. by apply same_array_trans with v1.
Qed.

Lemma marks_only_search a : marks_only (_metpy_axis_search get_dimensionality a).
Proof. intros v. apply search_same_array. Qed.

Lemma marks_only_axis axis : marks_only (_axis get_dimensionality axis).
Proof.
  unfold _axis. destruct (readable_to_cf_axes axis) as [a|].
  - apply marks_only_bind; [apply marks_only_search |].
    intros [i|]; [apply marks_only_ret | apply marks_only_raise].
  - apply marks_only_raise.
Qed.

Lemma marks_only_find_axis_name axis :
  marks_only (find_axis_name get_dimensionality axis).
Proof.
  intros v. destruct axis as [n|s]; simpl.
  - destruct (py_index (dims v) n); apply same_array_refl.
  - destruct (negb _ && _).
    + apply (marks_only_bind (_axis get_dimensionality s)); [apply marks_only_axis |].
      intros i. apply marks_only_bind; [apply marks_only_self |].
      intros v'. destruct (coords v' !! i); [apply marks_only_ret | apply marks_only_raise].
    + destruct (_ && _); apply same_array_refl.
Qed.

(** The search returns a position of the array. *)
Lemma search_returns_position a v i :
  returned (_metpy_axis_search get_dimensionality a v) = Ok (Some i) ->
  is_Some (coords (final (_metpy_axis_search get_dimensionality a v)) !! i).
Proof.
  destruct (any_marked (cf_str a) v) eqn:Hany.
  - apply not_false_iff_true in Hany. rewrite <- list_find_mark_None in Hany.
    destruct (list_find _ (coords v)) as [[j c]|] eqn:Hf; [| done].
    rewrite (search_hit get_dimensionality a v j c Hf).
    unfold returned, final. simpl. intros [= ->].
    apply list_find_Some in Hf as (Hj & _). by exists c.
  - rewrite (search_miss get_dimensionality a v Hany).
    unfold returned, final. cbn [fst snd]. intros [= Hm].
    destruct ((_generate_coordinate_map get_dimensionality v).1 a)
      as [[j c]|] eqn:Hmap; [| done].
    simpl in Hm. injection Hm as ->. apply generate_lookup in Hmap.
    apply lookup_lt_is_Some.
    rewrite <- (same_array_length _ _ (fold_assign_same_array _ cf_axes v)).
    by eapply lookup_lt_Some.
Qed.

Lemma axis_returns_position axis v i :
  returned (_axis get_dimensionality axis v) = Ok i ->
  is_Some (coords (final (_axis get_dimensionality axis v)) !! i).
Proof.
  unfold _axis. destruct (readable_to_cf_axes axis) as [a|]; [| done].
  unfold bind. pose proof (search_returns_position a v) as Hpos.
  destruct (_metpy_axis_search get_dimensionality a v) as [[v1 w1] [[j|]|e]];
    unfold returned, final in *; simpl in *; try done.
  intros [= ->]. by apply Hpos.
Qed.
(** A request for an axis type returns, or the axis is not available. *)
Lemma axis_outcome axis v a :
  readable_to_cf_axes axis = Some a ->
  (exists i, returned (_axis get_dimensionality axis v) = Ok i)
  \/ returned (_axis get_dimensionality axis v)
     = Raise (AttributeError (axis +:+ " attribute is not available.")).
Proof.
  intros Hread. unfold _axis. rewrite Hread. unfold bind.
  destruct (any_marked (cf_str a) v) eqn:Hany.
  - apply not_false_iff_true in Hany. rewrite <- list_find_mark_None in Hany.
    destruct (list_find _ (coords v)) as [[j c]|] eqn:Hf; [| done].
    rewrite (search_hit get_dimensionality a v j c Hf). left. by exists j.
  - rewrite (search_miss get_dimensionality a v Hany).
    destruct (fst <$> _) as [j|]; [left; by exists j | by right].
Qed.
End CacheMore.

Section IndexerMore.
Context {Dim : Type} `{EqDecision Dim}.
Variable get_dimensionality : option string -> option Dim.
Context {Unit Magnitude : Type}.
Variable parse_units : string -> option Unit.
Variable convert : Magnitude -> Unit -> Unit -> option Magnitude.

Abbreviation dict' := (list (string * indexer (Unit := Unit) (Magnitude := Magnitude))).

Lemma marks_only_rename_key k (d : dict') :
  marks_only (rename_key get_dimensionality k d).
Proof.
  unfold rename_key. apply marks_only_bind; [apply marks_only_self |].
  intros data. destruct (negb _ && _); [| apply marks_only_ret].
  apply marks_only_bind; [apply marks_only_axis |]. intros i.
  apply marks_only_bind; [apply marks_only_self |]. intros data'.
  destruct (coords data' !! i); [| apply marks_only_raise].
  apply marks_only_bind; [apply marks_only_lift |]. intros x. apply marks_only_ret.
Qed.

Lemma marks_only_convert_key k (d : dict') :
  marks_only (convert_key parse_units convert k d).
Proof.
  unfold convert_key.
  apply marks_only_bind; [apply marks_only_self |]. intros data.
  apply marks_only_bind; [apply marks_only_lift |]. intros x.
  apply marks_only_bind.
  - destruct x; [apply marks_only_ret |].
    repeat (apply marks_only_bind; [apply marks_only_lift |]; intros ?).
    apply marks_only_ret.
  - intros d'.
    repeat (apply marks_only_bind; [apply marks_only_lift |]; intros ?).
    apply marks_only_ret.
Qed.

Lemma marks_only_reassign_key k (d : dict') :
  marks_only (reassign_key get_dimensionality parse_units convert k d).
Proof.
  unfold reassign_key. apply marks_only_bind; [apply marks_only_rename_key |].
  intros renamed. apply marks_only_convert_key.
Qed.

Lemma marks_only_reassign_keys used keys : forall d : dict',
  marks_only (reassign_keys get_dimensionality parse_units convert used keys d).
Proof.
  induction keys as [|k keys IH]; intros d; simpl;
    destruct (negb _); try apply marks_only_raise; [apply marks_only_ret |].
  apply marks_only_bind; [apply marks_only_reassign_key | apply IH].
Qed.
End IndexerMore.

(** X12: the lookups and the translation of a selection touch nothing but
    the cache: however [_metpy_axis_search], [_axis], [find_axis_name] and
    [_reassign_quantity_indexer] end (a result or an exception), the array
    has the same name and dimensions, and each coordinate the same name,
    dimensions and attributes other than [_metpy_axis]. *)
Theorem lookups_change_marks_only {Dim : Type} `{EqDecision Dim}
    (get_dimensionality : option string -> option Dim)
    {Unit Magnitude : Type}
    (parse_units : string -> option Unit)
    (convert : Magnitude -> Unit -> Unit -> option Magnitude) :
  (forall a, marks_only (_metpy_axis_search get_dimensionality a))
  /\ (forall axis, marks_only (_axis get_dimensionality axis))
  /\ (forall axis, marks_only (find_axis_name get_dimensionality axis))
  /\ (forall d : list (string * indexer),
        marks_only (_reassign_quantity_indexer get_dimensionality
                      parse_units convert d)).
Proof.
  split; [apply marks_only_search |]. split; [apply marks_only_axis |].
  split; [apply marks_only_find_axis_name |].
  intros d. apply marks_only_reassign_keys.
Qed.

(** X13: one lookup caches every axis.  On an array none of whose
    coordinates is marked, and for which the resolver holds different
    coordinates for different axes, a single call of [_metpy_axis_search],
    for whatever axis, leaves each coordinate of the map as the only one
    marked with its axis, so that a later request for any of these axes is
    answered from the mark, without a warning. *)
Theorem search_marks_every_axis {Dim : Type} `{EqDecision Dim}
    (get_dimensionality : option string -> option Dim)
    (v : DataArray) (a : cf_axis) :
  (forall c, c ∈ coords v -> mark c = None) ->
  (forall b b' i,
     fst <$> (_generate_coordinate_map get_dimensionality v).1 b = Some i ->
     fst <$> (_generate_coordinate_map get_dimensionality v).1 b' = Some i ->
     b = b') ->
  forall b i,
    fst <$> (_generate_coordinate_map get_dimensionality v).1 b = Some i ->
    only_at (cf_str b) i (final (_metpy_axis_search get_dimensionality a v))
    /\ _metpy_axis_search get_dimensionality b
         (final (_metpy_axis_search get_dimensionality a v))
       = (final (_metpy_axis_search get_dimensionality a v), [], Ok (Some i)).
Proof.
  intros Hfresh Hinj b i Hb.
  assert (Hun : forall k, any_marked (cf_str k) v = false).
  { intros k. apply any_marked_false. intros j c Hj Hm.
    rewrite (Hfresh c) in Hm; [done |]. by apply list_elem_of_lookup_2 with j. }
  rewrite (search_miss get_dimensionality a v (Hun a)).
  unfold final. cbn [fst snd].
  destruct ((_generate_coordinate_map get_dimensionality v).1 b)
    as [[i' c0]|] eqn:Hmap; [| done].
  simpl in Hb. injection Hb as ->.
  assert (Honly : only_at (cf_str b) i
            (foldl (assign_parsed (_generate_coordinate_map get_dimensionality v).1)
                   v cf_axes)).
  { apply fold_assign_marks with c0; try done.
    - apply cf_axes_nodup.
    - apply cf_axes_all.
    - eapply lookup_lt_Some. by eapply generate_lookup.
    - intros k Hk Hki. apply Hk. apply (Hinj k b i); [done |]. by rewrite Hmap. }
  split; [done |].
  destruct (only_at_find _ _ _ Honly) as [c Hf].
  by apply search_hit with c.
Qed.

Lemma search_marks_every_axis_witness :
  only_at (cf_str cfT) 0
    (final (_metpy_axis_search demo_dimensionality cfZ plain_array))
  /\ _metpy_axis_search demo_dimensionality cfT
       (final (_metpy_axis_search demo_dimensionality cfZ plain_array))
     = (final (_metpy_axis_search demo_dimensionality cfZ plain_array), [],
        Ok (Some 0)).
Proof.
  apply (search_marks_every_axis demo_dimensionality plain_array cfZ).
  - intros c Hc.
    repeat (apply elem_of_cons in Hc as [->|Hc]; [reflexivity |]).
    by apply elem_of_nil in Hc.
  - intros b b' i. destruct b, b'; vm_compute; congruence.
  - reflexivity.
Defined.

(** ** [find_axis_name] *)

Lemma bind_raise_eq {A B} (m : M A) (f : A -> M B) v v1 w1 e :
  m v = (v1, w1, Raise e) -> bind m f v = (v1, w1, Raise e).
Proof. intros Hm. unfold bind. by rewrite Hm. Qed.

Lemma bind_ok_eq {A B} (m : M A) (f : A -> M B) v v1 w1 a :
  m v = (v1, w1, Ok a) ->
  bind m f v = ((f a v1).1.1, w1 ++ (f a v1).1.2, (f a v1).2).
Proof. intros Hm. unfold bind. rewrite Hm. by destruct (f a v1) as [[v2 w2] r]. Qed.

(** X14: for a string, [find_axis_name] returns the name of a coordinate of
    the array, or raises the [AttributeError] of an axis that has no
    coordinate, or the [ValueError]; it raises nothing else. *)
Theorem find_axis_name_string_outcomes {Dim : Type} `{EqDecision Dim}
    (get_dimensionality : option string -> option Dim)
    (v : DataArray) (s : string) :
  (exists n, returned (find_axis_name get_dimensionality (AxisString s) v) = Ok n
             /\ n ∈ coord_names v)
  \/ returned (find_axis_name get_dimensionality (AxisString s) v)
     = Raise (AttributeError (s +:+ " attribute is not available."))
  \/ returned (find_axis_name get_dimensionality (AxisString s) v)
     = Raise (ValueError invalid_axis_message).
Proof.
  unfold find_axis_name.
  destruct (negb (bool_decide (s ∈ dims v))
            && bool_decide (is_Some (readable_to_cf_axes s))) eqn:Hcond.
  - pose proof (axis_returns_position get_dimensionality s v) as Hpos.
    pose proof (marks_only_axis get_dimensionality s v) as Hsame.
    apply andb_true_iff in Hcond as [_ Hread].
    apply bool_decide_eq_true in Hread as [a Hread].
    pose proof (axis_outcome get_dimensionality s v a Hread) as Hout.
    destruct (_axis get_dimensionality s v) as [[v1 w1] [i|e]] eqn:Haxis;
      unfold returned, final in Hpos, Hsame, Hout; cbn [fst snd] in Hpos, Hsame, Hout.
    + destruct (Hpos i eq_refl) as [c Hc].
      rewrite (bind_ok_eq _ _ v v1 w1 i Haxis), bind_self, Hc.
      left. exists (cname c). split; [reflexivity |].
      rewrite (same_array_coord_names v v1 Hsame).
      unfold coord_names. apply list_elem_of_fmap. exists c.
      split; [done | by apply list_elem_of_lookup_2 with i].
    + right. left. rewrite (bind_raise_eq _ _ v v1 w1 e Haxis).
      unfold returned. cbn [snd].
      destruct Hout as [[j Hj]|Hraise]; [discriminate Hj | by injection Hraise as ->].
  - destruct (bool_decide (s ∈ dims v) && bool_decide (s ∈ coord_names v)) eqn:Hdc.
    + left. exists s. split; [done |].
      apply andb_true_iff in Hdc as [_ Hc]. by apply bool_decide_eq_true in Hc.
    + by right; right.
Qed.

(** X15: the name of a dimension coordinate is returned as it is, before
    any axis type is considered: a dimension of the array that has a
    coordinate of its own name, be it called [x] or [time], is its own
    answer; no lookup is made, nothing is marked. *)
Theorem find_axis_name_dimension_coordinate {Dim : Type} `{EqDecision Dim}
    (get_dimensionality : option string -> option Dim)
    (v : DataArray) (s : string) :
  s ∈ dims v -> s ∈ coord_names v ->
  find_axis_name get_dimensionality (AxisString s) v = (v, [], Ok s).
Proof.
  intros Hd Hc. unfold find_axis_name.
  by rewrite (bool_decide_eq_true_2 _ Hd), (bool_decide_eq_true_2 _ Hc).
Qed.

Lemma find_axis_name_dimension_coordinate_witness :
  find_axis_name demo_dimensionality (AxisString "x") xy_grid
  = (xy_grid, [], Ok "x").
Proof.
  apply (find_axis_name_dimension_coordinate demo_dimensionality xy_grid "x");
    apply list_elem_of_In; simpl; tauto.
Defined.

(** X16: an axis number is a position among the dimensions, counted from
    the end when it is negative: within the bounds [find_axis_name] returns
    the dimension at that position, and [n] and [n - len] name the same
    dimension; outside the bounds it raises [IndexError].  The array is
    left as it is. *)
Theorem find_axis_name_number {Dim : Type} `{EqDecision Dim}
    (get_dimensionality : option string -> option Dim)
    (v : DataArray) (n : Z) :
  ((- Z.of_nat (length (dims v)) <= n < Z.of_nat (length (dims v)))%Z ->
     exists d,
       dims v !! Z.to_nat (n mod Z.of_nat (length (dims v))) = Some d
       /\ find_axis_name get_dimensionality (AxisNumber n) v = (v, [], Ok d))
  /\ (~ (- Z.of_nat (length (dims v)) <= n < Z.of_nat (length (dims v)))%Z ->
      find_axis_name get_dimensionality (AxisNumber n) v = (v, [], Raise IndexError)).
Proof.
  unfold find_axis_name, py_index. split.
  - intros [Hlo Hhi]. destruct (Z.leb_spec 0 n) as [Hpos|Hneg].
    + rewrite Z.mod_small by lia.
      destruct (lookup_lt_is_Some_2 (dims v) (Z.to_nat n)) as [d Hd]; [lia |].
      exists d. by rewrite Hd.
    + rewrite (proj2 (Z.leb_le _ _)) by lia.
      replace (n mod Z.of_nat (length (dims v)))%Z
        with (Z.of_nat (length (dims v)) + n)%Z.
      * destruct (lookup_lt_is_Some_2 (dims v)
                    (Z.to_nat (Z.of_nat (length (dims v)) + n))) as [d Hd]; [lia |].
        exists d. by rewrite Hd.
      * rewrite <- (Z.mod_small (Z.of_nat (length (dims v)) + n)
                      (Z.of_nat (length (dims v)))) by lia.
        rewrite Z.add_comm, <- (Z.mul_1_l (Z.of_nat (length (dims v)))) at 1.
        by rewrite Z.mod_add by lia.
  - intros Hout. destruct (Z.leb_spec 0 n) as [Hpos|Hneg].
    + rewrite lookup_ge_None_2 by lia. done.
    + rewrite (proj2 (Z.leb_gt _ _)) by lia. done.
Qed.

Lemma find_axis_name_number_witness :
  exists d,
    dims xy_grid !! Z.to_nat ((-1) mod Z.of_nat (length (dims xy_grid))) = Some d
    /\ find_axis_name demo_dimensionality (AxisNumber (-1)) xy_grid
       = (xy_grid, [], Ok d).
Proof.
  apply (proj1 (find_axis_name_number demo_dimensionality xy_grid (-1))).
  vm_compute. split; [discriminate | reflexivity].
Defined.

(** ** [assign_coordinates] *)

Lemma coord_names_find v n :
  list_find (fun c => cname c = n) (coords v) = None <-> n ∉ coord_names v.
Proof.
  rewrite list_find_None, Forall_forall. unfold coord_names. split.
  - intros Hall Hin. apply list_elem_of_fmap in Hin as (c & -> & Hc).
    by apply (Hall c).
  - intros Hn c Hc Heq. apply Hn. apply list_elem_of_fmap. by exists c.
Qed.

Lemma getitem_ref_attached v n i :
  getitem_ref v n = Ok (Attached i) ->
  exists c, coords v !! i = Some c /\ cname c = n.
Proof.
  unfold getitem_ref.
  destruct (list_find _ (coords v)) as [[j c]|] eqn:Hf.
  - intros [= ->]. apply list_find_Some in Hf as (Hj & Hn & _). by exists c.
  - by destruct (bool_decide _).
Qed.

Lemma getitem_ref_unknown v n :
  n ∉ coord_names v -> n ∉ dims v -> getitem_ref v n = Raise (KeyError n).
Proof.
  intros Hc Hd. unfold getitem_ref.
  by rewrite (proj2 (coord_names_find v n) Hc), (bool_decide_eq_false_2 _ Hd).
Qed.

Lemma getitem_ref_raise v n e :
  getitem_ref v n = Raise e ->
  e = KeyError n /\ n ∉ coord_names v /\ n ∉ dims v.
Proof.
  unfold getitem_ref.
  destruct (list_find _ (coords v)) as [[j c]|] eqn:Hf; [done |].
  destruct (bool_decide (n ∈ dims v)) eqn:Hd; [done |].
  intros [= <-]. split; [done |]. split.
  - by apply coord_names_find.
  - by apply bool_decide_eq_false in Hd.
Qed.

(** X17: an axis assigned by hand is what a lookup returns.  After
    [assign_coordinates({axis: name})] on an array where no coordinate
    carries that axis, [_metpy_axis_search] for the axis returns the
    coordinate of that name, without running the resolver and without a
    warning, whatever the criteria of the table say of the coordinate. *)
Theorem assign_then_search {Dim : Type} `{EqDecision Dim}
    (get_dimensionality : option string -> option Dim)
    (v : DataArray) (a : cf_axis) (n : string) (i : nat) :
  getitem_ref v n = Ok (Attached i) ->
  any_marked (cf_str a) v = false ->
  returned (assign_coordinates (Some [(cf_str a, Some (ByName n))]) v) = Ok tt
  /\ _metpy_axis_search get_dimensionality a
       (final (assign_coordinates (Some [(cf_str a, Some (ByName n))]) v))
     = (final (assign_coordinates (Some [(cf_str a, Some (ByName n))]) v),
        [], Ok (Some i)).
Proof.
  intros Hget Hun. unfold assign_coordinates, _fixup_coordinate_map.
  rewrite Hget. unfold returned, final. cbn [fst snd foldl assign_fixed].
  split; [done |].
  destruct (getitem_ref_attached v n i Hget) as (c & Hc & _).
  assert (Honly : only_at (cf_str a) i (set_mark i (cf_str a) v)).
  { split.
    - exists (set_attr metpy_axis_key (cf_str a) c).
      split; [by apply set_mark_lookup_eq | apply mark_set_attr].
    - intros j c' Hj Hm.
      apply set_mark_lookup in Hj as (c1 & Hc1 & [[-> _]|[_ ->]]); [done |].
      by destruct (proj1 (any_marked_false _ _) Hun j c1). }
  destruct (only_at_find _ _ _ Honly) as [c' Hf].
  by apply search_hit with c'.
Qed.

Lemma assign_then_search_witness :
  returned (assign_coordinates (Some [(cf_str cfT, Some (ByName "height"))])
              plain_array) = Ok tt
  /\ _metpy_axis_search demo_dimensionality cfT
       (final (assign_coordinates (Some [(cf_str cfT, Some (ByName "height"))])
                 plain_array))
     = (final (assign_coordinates (Some [(cf_str cfT, Some (ByName "height"))])
                 plain_array), [], Ok (Some 1)).
Proof.
  apply (assign_then_search demo_dimensionality plain_array cfT "height" 1);
    reflexivity.
Defined.

Lemma same_meta_clear_mark c : same_meta c (clear_mark c).
Proof. repeat split. intros k Hk. simpl. by rewrite lookup_delete_ne. Qed.

Lemma mark_clear_mark c : mark (clear_mark c) = None.
Proof. unfold mark. simpl. by rewrite lookup_delete_eq. Qed.

(** X18: [assign_coordinates] with [None] or with an empty mapping removes
    the [_metpy_axis] attribute of every coordinate and changes nothing
    else; the next lookup, for any axis, then runs the resolver and returns
    what it finds, with its warnings. *)
Theorem assign_coordinates_clears {Dim : Type} `{EqDecision Dim}
    (get_dimensionality : option string -> option Dim)
    (v : DataArray) (coordinates : option (list (string * option coord_ref))) :
  coordinates = None \/ coordinates = Some [] ->
  returned (assign_coordinates coordinates v) = Ok tt
  /\ same_array v (final (assign_coordinates coordinates v))
  /\ (forall c, c ∈ coords (final (assign_coordinates coordinates v)) ->
                mark c = None)
  /\ (forall a,
        returned (_metpy_axis_search get_dimensionality a
                    (final (assign_coordinates coordinates v)))
        = Ok (fst <$> (_generate_coordinate_map get_dimensionality v).1 a)
        /\ warned (_metpy_axis_search get_dimensionality a
                     (final (assign_coordinates coordinates v)))
           = (_generate_coordinate_map get_dimensionality v).2).
Proof.
  intros Hc.
  assert (Heq : assign_coordinates coordinates v
    = (mkDataArray (name v) (dims v) (clear_mark <$> coords v), [], Ok tt))
    by (by destruct Hc as [-> | ->]).
  rewrite Heq. unfold returned, final. cbn [fst snd].
  set (v' := mkDataArray (name v) (dims v) (clear_mark <$> coords v)).
  assert (Hsame : same_array v v').
  { repeat split. simpl. apply Forall2_fmap_r, Forall_Forall2_diag, Forall_forall.
    intros c _. apply same_meta_clear_mark. }
  assert (Hclear : forall c, c ∈ coords v' -> mark c = None).
  { intros c Hin. simpl in Hin. apply list_elem_of_fmap in Hin as (c0 & -> & _).
    apply mark_clear_mark. }
  split; [done |]. split; [done |]. split; [done |].
  intros a.
  assert (Hun : any_marked (cf_str a) v' = false).
  { apply any_marked_false. intros j c Hj Hm.
    rewrite (Hclear c) in Hm; [done |]. by apply list_elem_of_lookup_2 with j. }
  rewrite (search_miss get_dimensionality a v' Hun). cbn [fst snd].
  destruct (generate_related get_dimensionality v v' Hsame) as [Hmap Hw].
  by rewrite Hmap, Hw.
Qed.

Lemma assign_coordinates_clears_witness :
  returned (assign_coordinates None stale_array) = Ok tt
  /\ same_array stale_array (final (assign_coordinates None stale_array))
  /\ (forall c, c ∈ coords (final (assign_coordinates None stale_array)) ->
                mark c = None)
  /\ (forall a,
        returned (_metpy_axis_search demo_dimensionality a
                    (final (assign_coordinates None stale_array)))
        = Ok (fst <$> (_generate_coordinate_map demo_dimensionality stale_array).1 a)
        /\ warned (_metpy_axis_search demo_dimensionality a
                     (final (assign_coordinates None stale_array)))
           = (_generate_coordinate_map demo_dimensionality stale_array).2).
Proof.
  apply (assign_coordinates_clears demo_dimensionality stale_array None).
  by left.
Defined.

Lemma fixup_unknown_name v m :
  (exists axis n, (axis, Some (ByName n)) ∈ m
                  /\ n ∉ coord_names v /\ n ∉ dims v) ->
  exists n', _fixup_coordinate_map v m = Raise (KeyError n')
             /\ n' ∉ coord_names v /\ n' ∉ dims v.
Proof.
  induction m as [|[axis0 r] m IH]; intros (axis & n & Hin & Hc & Hd).
  - by apply elem_of_nil in Hin.
  - cbn [_fixup_coordinate_map].
    destruct r as [[n0|i0]|].
    + destruct (getitem_ref v n0) as [f|e] eqn:Hget.
      * apply elem_of_cons in Hin as [Heq|Hin].
        -- injection Heq as -> ->. by rewrite (getitem_ref_unknown v n0 Hc Hd) in Hget.
        -- destruct IH as (n' & -> & Hn'); [by exists axis, n |]. by exists n'.
      * apply getitem_ref_raise in Hget as (-> & Hc0 & Hd0). by exists n0.
    + apply elem_of_cons in Hin as [Heq|Hin]; [done |].
      destruct IH as (n' & -> & Hn'); [by exists axis, n |]. by exists n'.
    + apply elem_of_cons in Hin as [Heq|Hin]; [done |].
      destruct IH as (n' & -> & Hn'); [by exists axis, n |]. by exists n'.
Qed.

(** X19: the names of the mapping are all looked up before any mark is
    written: when one of them is neither a coordinate nor a dimension of
    the array, [assign_coordinates] raises [KeyError] for such a name and
    the array is as it was, also for the entries that come before it. *)
Theorem assign_coordinates_unknown_name
    (v : DataArray) (m : list (string * option coord_ref)) :
  (exists axis n, (axis, Some (ByName n)) ∈ m
                  /\ n ∉ coord_names v /\ n ∉ dims v) ->
  exists n', assign_coordinates (Some m) v = (v, [], Raise (KeyError n'))
             /\ n' ∉ coord_names v /\ n' ∉ dims v.
Proof.
  intros Hbad. destruct (fixup_unknown_name v m Hbad) as (n' & Hfix & Hn').
  exists n'. split; [| done]. unfold assign_coordinates.
  destruct m as [|e rest].
  - destruct Hbad as (axis & n & Hin & _). by apply elem_of_nil in Hin.
  - by rewrite Hfix.
Qed.

Lemma assign_coordinates_unknown_name_witness :
  exists n',
    assign_coordinates
      (Some [("T", Some (ByName "time")); ("Z", Some (ByName "level"))]) plain_array
    = (plain_array, [], Raise (KeyError n'))
    /\ n' ∉ coord_names plain_array /\ n' ∉ dims plain_array.
Proof.
  apply (assign_coordinates_unknown_name plain_array
           [("T", Some (ByName "time")); ("Z", Some (ByName "level"))]).
  exists "Z", "level". split; [apply list_elem_of_In; simpl; tauto |].
  split; intros Hin; vm_compute in Hin;
    repeat (apply elem_of_cons in Hin as [Hin|Hin]; [discriminate |]);
    by apply elem_of_nil in Hin.
Defined.
